(** * MultiWebsiteScraper: a shallow embedding of the crawl pipeline

    The development follows [tempCodeRunnerFile.py]: the fetcher
    ([get_page_content]), the extractor ([extract_data_from_soup]), the
    site task ([scrape_website]), the scheduler ([scrape_all_websites])
    and the reporter ([generate_report]).

    Python values are modelled as the code has them: an [int] is a [Z], a
    [str] is a [string], a [dict] used as a map is a [gmap] keyed by
    strings, [None] in a record is the constructor [VNone].  The network,
    the HTML engine, the clock and [urljoin] are external collaborators:
    they are taken as oracles collected in a [world].  Exceptions are the
    constructor [Raise] of [result]; a method that sleeps, fetches or reads
    the clock is a computation in the monad [M], which threads the
    [state] (request counter, clock ticks, and the trace of observable
    effects).  Calls to the logger have no effect on any value computed
    and are left out. *)

From stdpp Require Import gmap strings list fin_maps.

Local Open Scope Z_scope.

(** ** Python values, exceptions and results *)

Inductive exn :=
| RequestException          (* requests.exceptions.RequestException *)
| KeyError (key : string)   (* d[key] on a missing key *)
| ValueError
| RuntimeError.             (* any other subclass of Exception *)

Inductive result (A : Type) :=
| Ok (a : A)
| Raise (e : exn).
Arguments Ok {A} a.
Arguments Raise {A} e.

(** A bs4 [Tag] (the [BeautifulSoup] object is one too): its stripped text,
    and the outcome of [select] for every selector string.  [select] may
    raise (for instance on a selector that does not parse). *)
#[warnings="-register-all"]
Inductive Tag :=
| MkTag (text : string) (sel : string → result (list Tag)).

Definition get_text (t : Tag) : string :=
  match t with MkTag text _ => text end.

Definition select (t : Tag) (selector : string) : result (list Tag) :=
  match t with MkTag _ sel => sel selector end.

(** The values stored in a scraped item. *)
Inductive value :=
| VNone
| VStr (s : string)
| VInt (z : Z)
| VList (l : list string).

Abbreviation record := (gmap string value).

(** ** Strings *)

(** [s[:n]] *)
Fixpoint str_take (n : nat) (s : string) : string :=
  match n, s with
  | O, _ => EmptyString
  | S n', EmptyString => EmptyString
  | S n', String c s' => String c (str_take n' s')
  end.

(** [s[n:]] *)
Fixpoint str_drop (n : nat) (s : string) : string :=
  match n, s with
  | O, _ => s
  | S n', EmptyString => EmptyString
  | S n', String _ s' => str_drop n' s'
  end.

(** [s.endswith(suffix)] *)
Definition endswith (s suffix : string) : bool :=
  let n := String.length s in
  let k := String.length suffix in
  (k <=? n)%nat && String.eqb (str_drop (n - k) s) suffix.

(** ** The state threaded through the crawl, and its monad *)

Inductive event :=
| EvGet (url : string) (timeout : Z)   (* session.get(url, timeout=timeout) *)
| EvSleep (secs : Z).                  (* time.sleep(secs) *)

Record state := mkState {
  requests : nat;        (* GET requests issued so far *)
  ticks : nat;           (* readings of the clock so far *)
  trace : list event     (* requests and sleeps, oldest first *)
}.

Definition initial_state : state := mkState 0 0 [].

(** What a task sees of the outside: [session_get w n url] is the outcome of
    the task's [n]-th request (the GET, [raise_for_status] and the parse
    taken together); [utcnow w n] is the ISO text of the [n]-th reading of
    [datetime.now(timezone.utc)]. *)
Record world := mkWorld {
  urljoin : string → string → string;
  session_get : nat → string → result Tag;
  utcnow : nat → string
}.

Definition M (A : Type) : Type := state → result A * state.

Definition ret {A} (a : A) : M A := λ s, (Ok a, s).

Definition raise {A} (e : exn) : M A := λ s, (Raise e, s).

Definition bind {A B} (m : M A) (f : A → M B) : M B :=
  λ s, match m s with
       | (Ok a, s') => f a s'
       | (Raise e, s') => (Raise e, s')
       end.

Notation "'let!' x ':=' m 'in' k" := (bind m (λ x, k))
  (at level 10, x name, m at level 100, k at level 200).
Notation "'exec!' m 'in' k" := (bind m (λ _, k))
  (at level 10, m at level 100, k at level 200).

Definition sleep (secs : Z) : M unit :=
  λ s, (Ok (), mkState (requests s) (ticks s) (trace s ++ [EvSleep secs])).

Definition now (w : world) : M string :=
  λ s, (Ok (utcnow w (ticks s)), mkState (requests s) (S (ticks s)) (trace s)).

Definition http_get (w : world) (url : string) (timeout : Z) : M Tag :=
  λ s, (session_get w (requests s) url,
        mkState (S (requests s)) (ticks s) (trace s ++ [EvGet url timeout])).

(** ** Configuration *)

(** An absent key is [None]; [d.get(k, dflt)] is [default dflt]. *)
Record scraper_config := mkScraper {
  cfg_max_workers : option Z;
  cfg_default_delay : option Z;
  cfg_timeout : option Z;
  cfg_retries : option Z
}.

Record website_config := mkWebsite {
  ws_name : option string;
  ws_base_url : option string;
  ws_pages : option (list string);
  ws_selectors : option (gmap string string);
  ws_delay : option Z;
  ws_enabled : option bool
}.

Record config := mkConfig {
  scraper : scraper_config;
  websites : gmap string website_config
}.

(** ** Fetcher: [get_page_content] *)

(** [range(n)] *)
Definition range (n : Z) : list Z := Z.of_nat <$> seq 0 (Z.to_nat n).

(** The body of [for attempt in range(retries + 1)].  [return soup] and
    [return None] leave the loop; an exception that is not a
    [RequestException] is not caught and propagates. *)
Fixpoint fetch_attempts (w : world) (url : string) (timeout retries : Z)
    (attempts : list Z) : M (option Tag) :=
  match attempts with
  | [] => ret None
  | attempt :: rest => λ s,
      match http_get w url timeout s with
      | (Ok soup, s') => (Ok (Some soup), s')
      | (Raise RequestException, s') =>
          if attempt <? retries
          then (exec! sleep ((attempt + 1) * 2) in
                fetch_attempts w url timeout retries rest) s'
          else (Ok None, s')
      | (Raise e, s') => (Raise e, s')
      end
  end.

Definition get_page_content (w : world) (cfg : scraper_config)
    (url : string) (retries : option Z) : M (option Tag) :=
  let retries := default (default 3 (cfg_retries cfg)) retries in
  let timeout := default 30 (cfg_timeout cfg) in
  fetch_attempts w url timeout retries (range (retries + 1)).

(** ** Extractor: [extract_data_from_soup] *)

(** Truth value of [selectors.get(key)]: [None] and the empty string are
    false. *)
Definition truthy (o : option string) : bool :=
  match o with
  | Some s => negb (String.eqb s EmptyString)
  | None => false
  end.

(** [a or b] *)
Definition py_or (a b : option string) : option string :=
  if truthy a then a else b.

Definition container_selector (selectors : gmap string string) : option string :=
  py_or (selectors !! "quote_container")
    (py_or (selectors !! "book_container") (selectors !! "data_container")).

(** The value stored for a field, in the inner [try]: the texts of all the
    matches for [tags], the text of the first match for another field,
    [None] when nothing matches or when the selection raises. *)
Definition field_value (container : Tag) (field selector : string) : value :=
  match select container selector with
  | Ok [] => VNone
  | Ok (first :: others) =>
      if String.eqb field "tags"
      then VList (get_text <$> first :: others)
      else VStr (get_text first)
  | Raise _ => VNone
  end.

(** One turn of [for field, selector in selectors.items()]. *)
Definition extract_field (container : Tag) (field selector : string)
    (item_data : record) : record :=
  if endswith field "_container" then item_data
  else <[field := field_value container field selector]> item_data.

(** The dict an item starts from. *)
Definition new_item (website_name : string) (item_id : Z) (scraped_at : string)
    : record :=
  {[ "website" := VStr website_name;
     "item_id" := VInt item_id;
     "scraped_at" := VStr scraped_at ]}.

Definition extract_item (selectors : gmap string string) (website_name : string)
    (i : Z) (scraped_at : string) (container : Tag) : record :=
  map_fold (extract_field container)
    (new_item website_name (i + 1) scraped_at) selectors.

(** [for i, container in enumerate(containers)], from index [i] on. *)
Fixpoint extract_containers (w : world) (selectors : gmap string string)
    (website_name : string) (i : Z) (containers : list Tag)
    (extracted_data : list record) : M (list record) :=
  match containers with
  | [] => ret extracted_data
  | container :: rest =>
      let! ts := now w in
      let item_data := extract_item selectors website_name i (ts +:+ "Z") container in
      extract_containers w selectors website_name (i + 1) rest
        (extracted_data ++ [item_data])
  end.

(** The record of the whole page, when no container selector is given. *)
Definition page_item (website_name : string) (soup : Tag) (scraped_at : string)
    : record :=
  {[ "website" := VStr website_name;
     "content" := VStr (str_take 1000 (get_text soup));
     "scraped_at" := VStr scraped_at ]}.

(** The outer [try] catches what [soup.select] raises; nothing has been
    appended to [extracted_data] at that point, and the empty list is
    returned. *)
Definition extract_data_from_soup (w : world) (soup : Tag)
    (selectors : gmap string string) (website_name : string) : M (list record) :=
  let cs := container_selector selectors in
  if truthy cs then
    match select soup (default EmptyString cs) with
    | Ok containers => extract_containers w selectors website_name 0 containers []
    | Raise _ => ret []
    end
  else
    let! ts := now w in
    ret [page_item website_name soup (ts +:+ "Z")].

(** ** Site task: [scrape_website] *)

(** [for page in pages], with [all_data] as accumulated so far. *)
Fixpoint scrape_pages (w : world) (cfg : scraper_config) (website_name : string)
    (base_url : string) (selectors : gmap string string) (delay : Z)
    (pages : list string) (all_data : list record) : M (list record) :=
  match pages with
  | [] => ret all_data
  | page :: rest =>
      let full_url := urljoin w base_url page in
      let! soup := get_page_content w cfg full_url None in
      let! all_data := match soup with
                       | Some soup =>
                           let! page_data :=
                             extract_data_from_soup w soup selectors website_name in
                           ret (all_data ++ page_data)
                       | None => ret all_data
                       end in
      exec! (if 0 <? delay then sleep delay else ret ()) in
      scrape_pages w cfg website_name base_url selectors delay rest all_data
  end.

Definition scrape_website (w : world) (cfg : scraper_config)
    (website_name : string) (website_config : website_config) : M (list record) :=
  if negb (default true (ws_enabled website_config)) then ret []
  else
    let! base_url := match ws_base_url website_config with
                     | Some b => ret b
                     | None => raise (KeyError "base_url")
                     end in
    let pages := default ["/"] (ws_pages website_config) in
    let selectors := default ∅ (ws_selectors website_config) in
    let delay := default (default 2 (cfg_default_delay cfg))
                   (ws_delay website_config) in
    scrape_pages w cfg website_name base_url selectors delay pages [].

(** ** Reporter: [generate_report] *)

Record site_entry := mkEntry {
  items_scraped : Z;
  status : string
}.

Record report := mkReport {
  timestamp : string;
  user : string;
  total_websites : Z;
  report_websites : gmap string site_entry;
  total_items : Z
}.

(** [len(data)] *)
Definition len {A} (l : list A) : Z := Z.of_nat (length l).

(** One turn of [for website_name, data in self.scraped_data.items()]. *)
Definition report_site (website_name : string) (data : list record)
    (r : report) : report :=
  let item_count := len data in
  mkReport (timestamp r) (user r) (total_websites r)
    (<[website_name :=
         mkEntry item_count (if 0 <? item_count then "success" else "no_data")]>
       (report_websites r))
    (total_items r + item_count).

Definition generate_report (ts : string)
    (scraped_data : gmap string (list record)) : report :=
  map_fold report_site
    (mkReport (ts +:+ "Z") "CrypticLuminary" (Z.of_nat (size scraped_data)) ∅ 0)
    scraped_data.

(** ** Scheduler: [scrape_all_websites] and [run] *)

(** A future, paired with the site name that [future_to_website] maps it
    to.  Its outcome is that of the site task, which runs in a thread of its
    own: [w name] is the world as the task of site [name] sees it. *)
Definition future : Type := string * result (list record).

Definition submit (w : string → world) (cfg : scraper_config)
    (name : string) (website_config : website_config) : result (list record) :=
  (scrape_website (w name) cfg name website_config initial_state).1.

Definition future_to_website (w : string → world) (cfg : config) : list future :=
  map_to_list (map_imap (λ name wc, Some (submit w (scraper cfg) name wc))
                 (websites cfg)).

(** One turn of [for future in as_completed(future_to_website)]. *)
Definition collect (all_scraped_data : gmap string (list record)) (f : future)
    : gmap string (list record) :=
  match f.2 with
  | Ok data => <[f.1 := data]> all_scraped_data
  | Raise _ => <[f.1 := []]> all_scraped_data
  end.

Section Scheduler.

(** [as_completed] yields every future once, in the order of completion. *)
Variable as_completed : list future → list future.
Hypothesis as_completed_perm : ∀ fs, as_completed fs ≡ₚ fs.

(** [ThreadPoolExecutor(max_workers=n)] raises [ValueError] for [n <= 0]. *)
Definition scrape_all_websites (w : string → world) (cfg : config)
    : result (gmap string (list record)) :=
  let max_workers := default 3 (cfg_max_workers (scraper cfg)) in
  if max_workers <=? 0 then Raise ValueError
  else Ok (foldl collect ∅ (as_completed (future_to_website w cfg))).

(** [run], up to the report: the writers of [save_data] and the writing of
    the report file are left out.  [ts] is the clock reading of
    [generate_report]. *)
Definition run (w : string → world) (cfg : config) (ts : string) : result report :=
  match scrape_all_websites w cfg with
  | Ok scraped_data => Ok (generate_report ts scraped_data)
  | Raise e => Raise e
  end.

End Scheduler.

(** ** Observations on traces *)

(** Number of requests in a trace. *)
Definition attempts_made (tr : list event) : nat :=
  sum_list_with (λ e, match e with EvGet _ _ => 1 | EvSleep _ => 0 end)%nat tr.

(** The sleeps of a trace, in order. *)
Definition waits (tr : list event) : list Z :=
  omap (λ e, match e with EvSleep secs => Some secs | EvGet _ _ => None end) tr.

(** The trace the claim describes for a fetch that exhausts [r] retries:
    a first attempt, then for k = 1..r a wait of 2k seconds followed by
    attempt k+1. *)
Definition exhausted_trace (url : string) (timeout : Z) (r : nat) : list event :=
  EvGet url timeout ::
  flat_map (λ k, [EvSleep (Z.of_nat k * 2); EvGet url timeout]) (seq 1 r).


(** ** Sample sites *)

Module Sample.

(** An element with a text and nothing below it. *)
Definition leaf (text : string) : Tag := MkTag text (λ _, Ok []).

(** A quote block: [.text], [.author] and [.tag] select its parts, the
    selector [[] does not parse, any other selector matches nothing. *)
Definition quote (text author : string) (tags : list string) : Tag :=
  MkTag (text +:+ author)
    (λ selector,
       if String.eqb selector ".text" then Ok [leaf text]
       else if String.eqb selector ".author" then Ok [leaf author; leaf "again"]
       else if String.eqb selector ".tag" then Ok (leaf <$> tags)
       else if String.eqb selector "[" then Raise ValueError
       else Ok []).

(** A page whose [.quote] elements are [items]. *)
Definition page (text : string) (items : list Tag) : Tag :=
  MkTag text (λ selector, if String.eqb selector ".quote" then Ok items else Ok []).

Definition q1 : Tag := quote "To be" "W. S." ["life"; "doubt"; "stage"].
Definition q2 : Tag := quote "I think" "R. D." [].
Definition q3 : Tag := quote "Eppur" "G. G." ["motion"].

Definition selectors : gmap string string :=
  {[ "quote_container" := ".quote"; "text" := ".text";
     "author" := ".author"; "tags" := ".tag" ]}.

Definition cfg : scraper_config := mkScraper (Some 3) (Some 0) (Some 30) (Some 2).

(** A site of two pages, with two quotes on the first and one on the
    second; every other URL is unreachable. *)
Definition books_world : world :=
  mkWorld (λ base page, base +:+ page)
    (λ _ url,
       if String.eqb url "http://books/p1" then Ok (page "one" [q1; q2])
       else if String.eqb url "http://books/p2" then Ok (page "two" [q3])
       else Raise RequestException)
    (λ _, "2024-05-01T10:00:00+00:00").

Definition books : website_config :=
  mkWebsite (Some "Books") (Some "http://books") (Some ["/p1"; "/p2"])
    (Some selectors) None None.

(** A network on which every request fails. *)
Definition dead_world : world :=
  mkWorld (λ base page, base +:+ page) (λ _ _, Raise RequestException)
    (λ _, "2024-05-01T10:00:00+00:00").

End Sample.

(** ** Statements that the extractor does not satisfy as written *)

(** "Any other field name with at least one match yields the text of only
    the first matched element", for every field name of the selector map. *)
Definition every_other_field_holds_first_match : Prop :=
  ∀ (w : world) (soup : Tag) (selectors : gmap string string)
    (website_name : string) (s : state) (containers : list Tag) (j : nat)
    (container : Tag) (field selector : string) (first : Tag) (others : list Tag),
    truthy (container_selector selectors) = true →
    select soup (default EmptyString (container_selector selectors)) = Ok containers →
    containers !! j = Some container →
    selectors !! field = Some selector →
    field ≠ "tags" →
    select container selector = Ok (first :: others) →
    ∃ data item,
      (extract_data_from_soup w soup selectors website_name s).1 = Ok data
      ∧ data !! j = Some item
      ∧ item !! field = Some (VStr (get_text first)).

(** "Every record carries the site name, an item index and a capture
    timestamp." *)
Definition carries_provenance (website_name : string) (item : record) : Prop :=
  item !! "website" = Some (VStr website_name)
  ∧ (∃ k, item !! "item_id" = Some (VInt k))
  ∧ (∃ ts, item !! "scraped_at" = Some (VStr ts)).

Definition every_record_carries_provenance : Prop :=
  ∀ (w : world) (soup : Tag) (selectors : gmap string string)
    (website_name : string) (s : state) (data : list record) (item : record),
    (extract_data_from_soup w soup selectors website_name s).1 = Ok data →
    item ∈ data →
    carries_provenance website_name item.

(** ** Item indexes of a site *)

Definition item_ids (data : list record) : list (option value) :=
  (λ item : record, item !! "item_id") <$> data.

(** The indexes are exactly 1..N, N the number of records. *)
Definition running_item_ids (data : list record) : Prop :=
  item_ids data = (λ k, Some (VInt (Z.of_nat k))) <$> seq 1 (length data).

(** "The records of a site's outcome carry the indexes 1..N, counted across
    all the pages of the site." *)
Definition site_item_ids_are_running : Prop :=
  ∀ (w : world) (cfg : scraper_config) (website_name : string)
    (wc : website_config) (s : state) (data : list record),
    (scrape_website w cfg website_name wc s).1 = Ok data →
    running_item_ids data.

(** The records that one page contributes: indexed from 1 in the
    per-container path; nothing or the single unindexed page record in the
    whole-page path. *)
Definition page_batch (selectors : gmap string string) (batch : list record) : Prop :=
  if truthy (container_selector selectors)
  then running_item_ids batch
  else batch = [] ∨ item_ids batch = [None].

(** The state after the delay that follows a page. *)
Definition after_delay (delay : Z) (s : state) : state :=
  if 0 <? delay
  then mkState (requests s) (ticks s) (trace s ++ [EvSleep delay])
  else s.

(** The records that each page of a site contributes, page by page, as the
    loop of [scrape_website] meets them from state [s]: for the i-th page,
    what [extract_data_from_soup] returns for the page that
    [get_page_content] fetched, and nothing when the fetch returned
    [None].  The list stops at a page whose fetch raises. *)
Fixpoint pages_batches (w : world) (cfg : scraper_config) (website_name : string)
    (base_url : string) (selectors : gmap string string) (delay : Z)
    (pages : list string) (s : state) : list (list record) :=
  match pages with
  | [] => []
  | page :: rest =>
      match get_page_content w cfg (urljoin w base_url page) None s with
      | (Ok (Some soup), s1) =>
          match extract_data_from_soup w soup selectors website_name s1 with
          | (Ok page_data, s2) =>
              page_data
              :: pages_batches w cfg website_name base_url selectors delay rest
                   (after_delay delay s2)
          | (Raise _, _) => []
          end
      | (Ok None, s1) =>
          []
          :: pages_batches w cfg website_name base_url selectors delay rest
               (after_delay delay s1)
      | (Raise _, _) => []
      end
  end.

(** ** Outcomes and report entries *)

(** What the scheduler stores for a future: the data it returned, or the
    empty list when it raised. *)
Definition recorded (res : result (list record)) : list record :=
  match res with
  | Ok data => data
  | Raise _ => []
  end.

(** The report entry of a site. *)
Definition entry_of (data : list record) : site_entry :=
  mkEntry (len data) (if 0 <? len data then "success" else "no_data").

(** Sum of [items_scraped] over the per-site entries of a report. *)
Definition sum_items_scraped (entries : gmap string site_entry) : Z :=
  map_fold (λ _ e acc, acc + items_scraped e) 0 entries.

(** The task of a site raises in the middle of its run, at the fetch of a
    page, the pages before it having produced [n] records. *)
Definition raises_after (w : world) (cfg : scraper_config) (website_name : string)
    (wc : website_config) (n : nat) : Prop :=
  ∃ base_url pages_done page pages_left all_data s1 e,
    default true (ws_enabled wc) = true
    ∧ ws_base_url wc = Some base_url
    ∧ default ["/"] (ws_pages wc) = pages_done ++ page :: pages_left
    ∧ scrape_pages w cfg website_name base_url (default ∅ (ws_selectors wc))
        (default (default 2 (cfg_default_delay cfg)) (ws_delay wc))
        pages_done [] initial_state = (Ok all_data, s1)
    ∧ length all_data = n
    ∧ (get_page_content w cfg (urljoin w base_url page) None s1).1 = Raise e.

(** "Of two sites, the one whose task raises after producing 2 records is
    reported with status [error] and its 2 records, the other with status
    [success] and its 5 records, and [total_items] is 7." *)
Definition faulted_site_reported_as_error : Prop :=
  ∀ (as_completed : list future → list future) (w : string → world)
    (cfg : config) (ts : string) (a b : string) (wa wb : website_config)
    (data_b : list record),
    (∀ fs, as_completed fs ≡ₚ fs) →
    0 < default 3 (cfg_max_workers (scraper cfg)) →
    a ≠ b →
    websites cfg = {[ a := wa; b := wb ]} →
    raises_after (w a) (scraper cfg) a wa 2 →
    submit w (scraper cfg) b wb = Ok data_b →
    length data_b = 5%nat →
    ∃ scraped_data r,
      scrape_all_websites as_completed w cfg = Ok scraped_data
      ∧ run as_completed w cfg ts = Ok r
      ∧ length <$> scraped_data !! a = Some 2%nat
      ∧ status <$> report_websites r !! a = Some "error"
      ∧ scraped_data !! b = Some data_b
      ∧ status <$> report_websites r !! b = Some "success"
      ∧ total_items r = 7.

(** ** A sample crawl of two sites *)

Module Crawl.

Import Sample.

(** The second page of the first site makes the fetch raise an exception
    that is not a request exception. *)
Definition quotes_world : world :=
  mkWorld (λ base page, base +:+ page)
    (λ _ url,
       if String.eqb url "http://quotes/p1" then Ok (page "one" [q1; q2])
       else Raise RuntimeError)
    (λ _, "2024-05-01T10:00:00+00:00").

Definition library_world : world :=
  mkWorld (λ base page, base +:+ page)
    (λ _ url, Ok (page "all" [q1; q2; q3; q1; q2]))
    (λ _, "2024-05-01T10:00:00+00:00").

Definition worlds (name : string) : world :=
  if String.eqb name "quotes" then quotes_world else library_world.

Definition quotes : website_config :=
  mkWebsite None (Some "http://quotes") (Some ["/p1"; "/p2"])
    (Some selectors) None None.

Definition library : website_config :=
  mkWebsite None (Some "http://library") (Some ["/"])
    (Some selectors) None None.

Definition crawl : config :=
  mkConfig cfg {[ "quotes" := quotes; "library" := library ]}.

End Crawl.

(** ** Further observations *)

(** What [get_page_content] makes of the outcome of a request that is not
    a request exception: the page is returned, any other exception
    propagates. *)
Definition settled (outcome : result Tag) : result (option Tag) :=
  match outcome with
  | Ok soup => Ok (Some soup)
  | Raise e => Raise e
  end.

(** Seconds slept in a trace. *)
Definition total_wait (tr : list event) : Z := foldr Z.add 0 (waits tr).

(** ** More sample data *)

Module Extra.

(** A page on which every selection raises. *)
Definition broken_page : Tag := MkTag "one" (λ _, Raise ValueError).

(** A page with two kinds of blocks. *)
Definition mixed_page : Tag :=
  MkTag "mixed"
    (λ selector,
       if String.eqb selector ".book" then Ok [Sample.q1; Sample.q2; Sample.q3]
       else if String.eqb selector ".row" then Ok [Sample.q1]
       else Ok []).

(** A network that answers from the third request on. *)
Definition slow_world : world :=
  mkWorld (λ base page, base +:+ page)
    (λ n _, if (n <? 2)%nat then Raise RequestException
            else Ok (Sample.page "late" []))
    (λ _, "2024-05-01T10:00:00+00:00").

End Extra.

(** The requests and sleeps of a site whose every request is answered at
    once: one request per page, in page order, each followed by the delay
    when it is positive. *)
Definition polite_trace (w : world) (cfg : scraper_config) (base_url : string)
    (delay : Z) (pages : list string) : list event :=
  flat_map (λ page, EvGet (urljoin w base_url page) (default 30 (cfg_timeout cfg))
                    :: (if 0 <? delay then [EvSleep delay] else []))
    pages.

(** ** Loading the configuration *)

Record storage_config := mkStorage {
  st_formats : option (list string);
  st_output_directory : option string
}.

(** The sections of the configuration file that the crawl and the writers
    read. *)
Record settings := mkSettings {
  crawl_config : config;
  storage : storage_config
}.

Definition get_default_config : settings :=
  mkSettings
    (mkConfig (mkScraper (Some 3) (Some 2) (Some 30) (Some 3)) ∅)
    (mkStorage (Some ["json"]) (Some "scraped_data")).

(** [load_config]: [parsed] is the outcome of opening and parsing the
    file; any exception gives the default configuration. *)
Definition load_config (parsed : result settings) : settings :=
  match parsed with
  | Ok config => config
  | Raise _ => get_default_config
  end.

(** ** The writers: [save_data], [save_json], [save_csv], [save_sqlite] *)

(** The result of a crawl as the writers see it: the dict in the order of
    [items()]. *)
Abbreviation site_items := (list (string * list (gmap string value))).

(** [sep.join(l)] *)
Fixpoint join (sep : string) (l : list string) : string :=
  match l with
  | [] => EmptyString
  | [x] => x
  | x :: rest => x +:+ sep +:+ join sep rest
  end.

(** What [save_sqlite] does to a value: a list becomes the text of its
    elements, separated by a comma and a space. *)
Definition flatten_value (v : value) : value :=
  match v with
  | VList l => VStr (join ", " l)
  | _ => v
  end.

(** [for key, value in item.items()]: the item is updated in place. *)
Definition flatten_item (item : gmap string value) : gmap string value :=
  flatten_value <$> item.

(** The outside of the writers: which files cannot be written, which
    database cannot be opened, which table cannot be stored. *)
Record disk := mkDisk {
  open_fails : string → bool;
  connect_fails : string → bool;
  to_sql_fails : string → bool
}.

(** What the writers did, with the data that went into it.  [FailedTable]
    is a call of [to_sql] that raised: what it left of the table in the
    database (nothing, or the table created without its rows) is not
    known. *)
Inductive written :=
| WroteJson (filename : string) (data : site_items)
| WroteCsv (filename : string) (rows : list (gmap string value))
| WroteTable (db_filename : string) (table : string)
    (rows : list (gmap string value))
| FailedTable (db_filename : string) (table : string)
    (rows : list (gmap string value)).

Definition save_json (io : disk) (output_dir : string) (data : site_items)
    (timestamp : string) : list written :=
  let filename := output_dir +:+ "/scraped_data_" +:+ timestamp +:+ ".json" in
  if open_fails io filename then [] else [WroteJson filename data].

(** The [try] is inside the loop: a file that cannot be written does not
    stop the others. *)
Fixpoint save_csv (io : disk) (output_dir : string) (data : site_items)
    (timestamp : string) : list written :=
  match data with
  | [] => []
  | (website_name, website_data) :: rest =>
      match website_data with
      | [] => save_csv io output_dir rest timestamp
      | _ =>
          let filename := output_dir +:+ "/scraped_" +:+ website_name +:+ "_"
                          +:+ timestamp +:+ ".csv" in
          if open_fails io filename
          then save_csv io output_dir rest timestamp
          else WroteCsv filename website_data
               :: save_csv io output_dir rest timestamp
      end
  end.

(** The loop of [save_sqlite].  The items of a site are updated in place
    before its table is stored; the [try] is outside the loop, so a call of
    [to_sql] that raises ends it.  The result is the data as the loop
    leaves it, and the calls of [to_sql] in order: the tables stored, and
    last the call that raised, if any. *)
Fixpoint sqlite_tables (io : disk) (db_filename : string) (data : site_items)
    : site_items * list written :=
  match data with
  | [] => ([], [])
  | (website_name, website_data) :: rest =>
      match website_data with
      | [] =>
          let '(rest', tables) := sqlite_tables io db_filename rest in
          ((website_name, []) :: rest', tables)
      | _ =>
          let rows := flatten_item <$> website_data in
          if to_sql_fails io website_name
          then ((website_name, rows) :: rest,
                [FailedTable db_filename website_name rows])
          else
            let '(rest', tables) := sqlite_tables io db_filename rest in
            ((website_name, rows) :: rest',
             WroteTable db_filename website_name rows :: tables)
      end
  end.

Definition save_sqlite (io : disk) (output_dir : string) (data : site_items)
    (timestamp : string) : site_items * list written :=
  let db_filename := output_dir +:+ "/scraped_data_" +:+ timestamp +:+ ".db" in
  if connect_fails io db_filename then (data, [])
  else sqlite_tables io db_filename data.

(** [for fmt in formats], with the data as the writers before left it. *)
Fixpoint save_formats (io : disk) (output_dir : string) (timestamp : string)
    (formats : list string) (data : site_items) : site_items * list written :=
  match formats with
  | [] => (data, [])
  | fmt :: rest =>
      let '(data', out) :=
        if String.eqb fmt "json"
        then (data, save_json io output_dir data timestamp)
        else if String.eqb fmt "csv"
        then (data, save_csv io output_dir data timestamp)
        else if String.eqb fmt "sqlite"
        then save_sqlite io output_dir data timestamp
        else (data, []) in
      let '(data'', out') := save_formats io output_dir timestamp rest data' in
      (data'', out ++ out')
  end.

(** [save_data]; [timestamp] is the formatted reading of the clock. *)
Definition save_data (io : disk) (storage : storage_config) (timestamp : string)
    (data : site_items) : site_items * list written :=
  let formats := default ["json"] (st_formats storage) in
  let output_dir := default "scraped_data" (st_output_directory storage) in
  save_formats io output_dir timestamp formats data.

(** A disk on which nothing fails. *)
Definition sound_disk : disk := mkDisk (λ _, false) (λ _, false) (λ _, false).

(** The number of records of every site, in order. *)
Definition counts (data : site_items) : list (string * nat) :=
  (λ p : string * list (gmap string value), (p.1, length p.2)) <$> data.

(** Every item of every site gone over by [save_sqlite]. *)
Definition flatten_sites (data : site_items) : site_items :=
  (λ p : string * list (gmap string value), (p.1, flatten_item <$> p.2)) <$> data.

(** One table per site that has records. *)
Definition tables_of (db_filename : string) (data : site_items) : list written :=
  omap (λ p : string * list (gmap string value),
          match p.2 with
          | [] => None
          | _ => Some (WroteTable db_filename p.1 (flatten_item <$> p.2))
          end) data.
(** * Properties *)

(** ** Strings *)

Lemma str_take_length (n : nat) (s : string) :
  (String.length (str_take n s) ≤ n)%nat.
Proof.
  revert s. induction n as [|n IH]; intros [|c s]; simpl; try lia.
  specialize (IH s). lia.
Qed.

Lemma str_drop_app (p s : string) :
  str_drop (String.length p) (p +:+ s) = s.
Proof. induction p as [|c p IH]; simpl; auto. Qed.

Lemma str_take_drop (n : nat) (s : string) :
  str_take n s +:+ str_drop n s = s.
Proof.
  revert s. induction n as [|n IH]; intros [|c s]; simpl; auto.
  change (String c (str_take n s +:+ str_drop n s) = String c s).
  by rewrite IH.
Qed.

Lemma str_length_app (p s : string) :
  String.length (p +:+ s) = (String.length p + String.length s)%nat.
Proof. induction p as [|c p IH]; simpl; auto. Qed.

(** [endswith] is the suffix test. *)
Lemma endswith_spec (s suffix : string) :
  endswith s suffix = true ↔ ∃ p, s = p +:+ suffix.
Proof.
  unfold endswith. rewrite andb_true_iff, Nat.leb_le, String.eqb_eq. split.
  - intros [_ Hd].
    remember (String.length s - String.length suffix)%nat as k eqn:Hk. clear Hk.
    exists (str_take k s). by rewrite <- Hd, str_take_drop.
  - intros [p ->]. rewrite str_length_app. split; [lia|].
    replace (String.length p + String.length suffix - String.length suffix)%nat
      with (String.length p) by lia.
    apply str_drop_app.
Qed.

(** ** The fetcher *)

Lemma fetch_attempts_bound w url timeout retries attempts s :
  ∃ added,
    trace (fetch_attempts w url timeout retries attempts s).2 = trace s ++ added
    ∧ (attempts_made added ≤ length attempts)%nat
    ∧ requests (fetch_attempts w url timeout retries attempts s).2
      = (requests s + attempts_made added)%nat
    ∧ ticks (fetch_attempts w url timeout retries attempts s).2 = ticks s.
Proof.
  revert s. induction attempts as [|attempt rest IH]; intros s; simpl.
  - exists []. rewrite app_nil_r. simpl. split_and!; auto with lia.
  - destruct (session_get w (requests s) url) as [soup|e] eqn:Hget; simpl.
    { exists [EvGet url timeout]. simpl. split_and!; auto with lia. }
    assert (Hstop : ∃ added : list event,
      trace s ++ [EvGet url timeout] = trace s ++ added
      ∧ (attempts_made added ≤ S (length rest))%nat
      ∧ S (requests s) = (requests s + attempts_made added)%nat
      ∧ ticks s = ticks s).
    { exists [EvGet url timeout]. simpl. split_and!; auto with lia. }
    destruct e; simpl; try exact Hstop.
    destruct (attempt <? retries); simpl; try exact Hstop.
    unfold bind, sleep. simpl.
    match goal with |- context [fetch_attempts _ _ _ _ _ ?s0] =>
      destruct (IH s0) as (added & Htr & Hle & Hreq & Htk) end.
    simpl in *. rewrite Htr, Hreq, Htk, <- !app_assoc. simpl.
    eexists (_ :: _ :: added). split; [reflexivity|].
    simpl. split_and!; auto with lia.
Qed.

(** One failed attempt: the loop sleeps and goes on, or gives up. *)
Lemma fetch_attempts_failed w url timeout retries attempt rest s :
  session_get w (requests s) url = Raise RequestException →
  fetch_attempts w url timeout retries (attempt :: rest) s
  = if attempt <? retries
    then fetch_attempts w url timeout retries rest
           (mkState (S (requests s)) (ticks s)
              (trace s ++ [EvGet url timeout; EvSleep ((attempt + 1) * 2)]))
    else (Ok None,
          mkState (S (requests s)) (ticks s) (trace s ++ [EvGet url timeout])).
Proof.
  intros Hget. simpl. rewrite Hget.
  destruct (attempt <? retries); [|done].
  unfold bind, sleep. simpl. by rewrite <- app_assoc.
Qed.

(** A fetch whose every attempt fails with a [RequestException], from
    attempt number [a] with [n] retries left. *)
Lemma fetch_attempts_exhausted w url timeout (n a : nat) s :
  (∀ k : nat, (k ≤ n)%nat →
     session_get w (requests s + k) url = Raise RequestException) →
  fetch_attempts w url timeout (Z.of_nat (a + n)) (Z.of_nat <$> seq a (S n)) s
  = (Ok None,
     mkState (requests s + S n) (ticks s)
       (trace s ++ EvGet url timeout ::
          flat_map (λ k, [EvSleep (Z.of_nat k * 2); EvGet url timeout])
            (seq (S a) n))).
Proof.
  assert (Hcons : ∀ a n, Z.of_nat <$> seq a (S n)
                           = Z.of_nat a :: (Z.of_nat <$> seq (S a) n)) by done.
  revert a s. induction n as [|n IH]; intros a s Hfail;
    (rewrite Hcons, fetch_attempts_failed
       by (rewrite <- (Hfail 0%nat) by lia; f_equal; lia)).
  - rewrite Nat.add_0_r, Z.ltb_irrefl. simpl. do 2 f_equal. lia.
  - replace (Z.of_nat a <? Z.of_nat (a + S n)) with true
      by (symmetry; apply Z.ltb_lt; lia).
    replace (a + S n)%nat with (S a + n)%nat by lia.
    rewrite IH.
    + simpl. rewrite <- !app_assoc. simpl.
      replace ((Z.of_nat a + 1) * 2) with (Z.of_nat (S a) * 2) by lia.
      do 2 f_equal. lia.
    + intros k Hk. simpl. rewrite <- (Hfail (S k)) by lia. f_equal. lia.
Qed.

Lemma exhausted_tail_attempts url timeout (a n : nat) :
  attempts_made
    (flat_map (λ k, [EvSleep (Z.of_nat k * 2); EvGet url timeout]) (seq a n)) = n.
Proof.
  revert a. induction n as [|n IH]; intros a; [done|].
  simpl. unfold attempts_made in IH. by rewrite IH.
Qed.

Lemma exhausted_tail_waits url timeout (a n : nat) :
  waits (flat_map (λ k, [EvSleep (Z.of_nat k * 2); EvGet url timeout]) (seq a n))
  = (λ k, Z.of_nat k * 2) <$> seq a n.
Proof.
  revert a. induction n as [|n IH]; intros a; [done|].
  simpl. unfold waits in IH. by rewrite IH.
Qed.

Lemma exhausted_trace_last url timeout (r : nat) :
  last (exhausted_trace url timeout r) = Some (EvGet url timeout).
Proof.
  unfold exhausted_trace.
  assert (Hlast : ∀ (l : list nat) e,
    last (e :: flat_map (λ k, [EvSleep (Z.of_nat k * 2); EvGet url timeout]) l)
    = Some (match l with [] => e | _ => EvGet url timeout end)).
  { induction l as [|k l IH]; intros e; [done|].
    simpl in *. rewrite (IH (EvGet url timeout)). by destruct l. }
  rewrite Hlast. by destruct (seq 1 r).
Qed.

(** C3. The fetcher issues at most r + 1 requests whatever the network
    answers.  When each of them fails with a request exception it returns
    [None] without raising, after exactly r + 1 requests; it sleeps 2k
    seconds between attempt k and attempt k + 1 and not after the last
    attempt. *)
Theorem get_page_content_retry_backoff (w : world) (cfg : scraper_config)
    (url : string) (retries : option Z) (s : state) :
  let r := default (default 3 (cfg_retries cfg)) retries in
  let timeout := default 30 (cfg_timeout cfg) in
  let fetched := get_page_content w cfg url retries s in
  0 ≤ r →
  (∃ added, trace fetched.2 = trace s ++ added
            ∧ Z.of_nat (attempts_made added) ≤ r + 1)
  ∧ ((∀ k : nat, Z.of_nat k ≤ r →
        session_get w (requests s + k) url = Raise RequestException) →
     fetched.1 = Ok None
     ∧ trace fetched.2 = trace s ++ exhausted_trace url timeout (Z.to_nat r)
     ∧ Z.of_nat (attempts_made (exhausted_trace url timeout (Z.to_nat r))) = r + 1
     ∧ waits (exhausted_trace url timeout (Z.to_nat r))
       = (λ k, Z.of_nat k * 2) <$> seq 1 (Z.to_nat r)
     ∧ last (exhausted_trace url timeout (Z.to_nat r)) = Some (EvGet url timeout)).
Proof.
  intros r timeout fetched Hr. subst fetched. unfold get_page_content.
  fold r timeout. split.
  - destruct (fetch_attempts_bound w url timeout r (range (r + 1)) s)
      as (added & Htr & Hle & _).
    exists added. split; [done|].
    unfold range in Hle. rewrite length_fmap, length_seq in Hle. lia.
  - intros Hfail.
    assert (Hrun := fetch_attempts_exhausted w url timeout (Z.to_nat r) 0 s).
    rewrite Nat.add_0_l, Z2Nat.id in Hrun by done.
    unfold range. replace (Z.to_nat (r + 1)) with (S (Z.to_nat r)) by lia.
    rewrite Hrun by (intros k Hk; apply Hfail; lia).
    split_and!; try done.
    + unfold exhausted_trace. simpl. rewrite exhausted_tail_attempts. lia.
    + unfold exhausted_trace. simpl. apply exhausted_tail_waits.
    + apply exhausted_trace_last.
Qed.

(** With [retries = 2] on a dead network: three requests, with sleeps of 2
    and 4 seconds between them. *)
Lemma get_page_content_retry_backoff_witness :
  0 ≤ 2
  ∧ (get_page_content Sample.dead_world Sample.cfg "http://x/" (Some 2)
       initial_state).1 = Ok None
  ∧ trace (get_page_content Sample.dead_world Sample.cfg "http://x/" (Some 2)
             initial_state).2
    = [EvGet "http://x/" 30; EvSleep 2; EvGet "http://x/" 30; EvSleep 4;
       EvGet "http://x/" 30].
Proof.
  split; [lia|].
  assert (Hr : 0 ≤ 2) by lia.
  destruct (get_page_content_retry_backoff Sample.dead_world Sample.cfg
              "http://x/" (Some 2) initial_state Hr) as [_ Hall].
  assert (Hdead : ∀ k : nat, Z.of_nat k ≤ 2 →
            session_get Sample.dead_world (requests initial_state + k) "http://x/"
            = Raise RequestException) by (intros; reflexivity).
  destruct (Hall Hdead) as (Hres & Htr & _).
  split; [exact Hres | exact Htr].
Defined.

(** ** The extractor *)

(** The fields of an item: a selector field that is not a [_container]
    field holds its [field_value]; every other key is as in the initial
    dict. *)
Lemma extract_fields_lookup (container : Tag) (selectors : gmap string string)
    (init : record) (field : string) :
  map_fold (extract_field container) init selectors !! field
  = match selectors !! field with
    | Some selector =>
        if endswith field "_container" then init !! field
        else Some (field_value container field selector)
    | None => init !! field
    end.
Proof.
  revert field.
  apply (map_fold_weak_ind (λ (r : record) (m : gmap string string),
    ∀ field, r !! field = match m !! field with
                          | Some selector =>
                              if endswith field "_container" then init !! field
                              else Some (field_value container field selector)
                          | None => init !! field
                          end)).
  - intros field. by rewrite lookup_empty.
  - intros f selector m r Hfresh IH field. unfold extract_field.
    destruct (decide (f = field)) as [->|Hne].
    + rewrite lookup_insert_eq.
      destruct (endswith field "_container") eqn:Hc.
      * by rewrite IH, Hfresh.
      * by rewrite lookup_insert_eq.
    + rewrite (lookup_insert_ne m) by done.
      destruct (endswith f "_container"); [apply IH|].
      rewrite lookup_insert_ne by done. apply IH.
Qed.

Lemma extract_item_lookup selectors website_name i scraped_at container field :
  extract_item selectors website_name i scraped_at container !! field
  = match selectors !! field with
    | Some selector =>
        if endswith field "_container"
        then new_item website_name (i + 1) scraped_at !! field
        else Some (field_value container field selector)
    | None => new_item website_name (i + 1) scraped_at !! field
    end.
Proof. apply extract_fields_lookup. Qed.

(** The loop over the containers reads the clock once per item and appends
    one item per container. *)
Lemma extract_containers_spec w selectors website_name i containers acc s :
  extract_containers w selectors website_name i containers acc s
  = (Ok (acc ++ imap (λ j container,
                        extract_item selectors website_name (i + Z.of_nat j)
                          (utcnow w (ticks s + j) +:+ "Z") container)
                  containers),
     mkState (requests s) (ticks s + length containers) (trace s)).
Proof.
  revert i acc s. induction containers as [|c rest IH]; intros i acc s.
  - simpl. rewrite app_nil_r, Nat.add_0_r. by destruct s.
  - simpl. unfold bind, now. rewrite IH. simpl.
    rewrite <- app_assoc, Z.add_0_r, Nat.add_0_r. simpl.
    replace (ticks s + S (length rest))%nat
      with (S (ticks s + length rest)) by lia.
    do 4 f_equal. apply imap_ext. intros j c' _. simpl.
    replace (i + 1 + Z.of_nat j) with (i + Z.of_nat (S j)) by lia.
    by replace (ticks s + S j)%nat with (S (ticks s + j)) by lia.
Qed.

(** The extractor never raises. *)
Lemma extract_data_from_soup_total w soup selectors website_name s :
  ∃ data, (extract_data_from_soup w soup selectors website_name s).1 = Ok data.
Proof.
  unfold extract_data_from_soup.
  destruct (truthy (container_selector selectors)).
  - destruct (select soup _); [|by eexists].
    rewrite extract_containers_spec. by eexists.
  - by eexists.
Qed.

(** The per-container path. *)
Lemma extract_data_container_path w soup selectors website_name s containers :
  truthy (container_selector selectors) = true →
  select soup (default EmptyString (container_selector selectors)) = Ok containers →
  extract_data_from_soup w soup selectors website_name s
  = (Ok (imap (λ j container,
                 extract_item selectors website_name (Z.of_nat j)
                   (utcnow w (ticks s + j) +:+ "Z") container)
           containers),
     mkState (requests s) (ticks s + length containers) (trace s)).
Proof.
  intros Hcs Hsel. unfold extract_data_from_soup. rewrite Hcs, Hsel.
  by rewrite extract_containers_spec.
Qed.

(** The whole-page path. *)
Lemma extract_data_page_path w soup selectors website_name s :
  truthy (container_selector selectors) = false →
  extract_data_from_soup w soup selectors website_name s
  = (Ok [page_item website_name soup (utcnow w (ticks s) +:+ "Z")],
     mkState (requests s) (S (ticks s)) (trace s)).
Proof. intros Hcs. unfold extract_data_from_soup. by rewrite Hcs. Qed.

Lemma new_item_lookup_container website_name k scraped_at field :
  endswith field "_container" = true →
  new_item website_name k scraped_at !! field = None.
Proof.
  intros Hc. unfold new_item.
  rewrite !lookup_insert_ne, lookup_singleton_ne; [done|..];
    intros <-; vm_compute in Hc; discriminate.
Qed.

(** C6. In the per-container path, a field whose selector matches nothing,
    or whose selection raises, is stored as [None] in the item: the key is
    there and its value is not the empty string; every other extracted field
    of the same item still holds its own value. *)
Theorem unmatched_field_is_none (w : world) (soup : Tag)
    (selectors : gmap string string) (website_name : string) (s : state)
    (containers : list Tag) (j : nat) (container : Tag)
    (field selector : string) :
  truthy (container_selector selectors) = true →
  select soup (default EmptyString (container_selector selectors)) = Ok containers →
  containers !! j = Some container →
  selectors !! field = Some selector →
  endswith field "_container" = false →
  (select container selector = Ok [] ∨ ∃ e, select container selector = Raise e) →
  ∃ data item,
    (extract_data_from_soup w soup selectors website_name s).1 = Ok data
    ∧ length data = length containers
    ∧ data !! j = Some item
    ∧ item !! field = Some VNone
    ∧ item !! field ≠ Some (VStr EmptyString)
    ∧ item !! field ≠ None
    ∧ (∀ f sel, selectors !! f = Some sel → endswith f "_container" = false →
         item !! f = Some (field_value container f sel)).
Proof.
  intros Hcs Hsel Hj Hfield Hc Hnone.
  rewrite (extract_data_container_path _ _ _ _ _ _ Hcs Hsel). simpl.
  eexists _, _. split; [reflexivity|]. split; [apply length_imap|].
  split; [by rewrite list_lookup_imap, Hj|].
  assert (Hval : ∀ f sel, selectors !! f = Some sel →
            endswith f "_container" = false →
            extract_item selectors website_name (Z.of_nat j)
              (utcnow w (ticks s + j) +:+ "Z") container !! f
            = Some (field_value container f sel)).
  { intros f sel Hf Hfc. by rewrite extract_item_lookup, Hf, Hfc. }
  assert (Hnull : field_value container field selector = VNone).
  { unfold field_value. by destruct Hnone as [->|[e ->]]. }
  rewrite (Hval _ _ Hfield Hc), Hnull. by split_and!.
Qed.

Lemma unmatched_field_is_none_witness :
  ∃ data item,
    (extract_data_from_soup Sample.books_world (Sample.page "one" [Sample.q1; Sample.q2])
       (<["broken" := "["]> Sample.selectors) "books" initial_state).1 = Ok data
    ∧ data !! 1%nat = Some item
    ∧ item !! "tags" = Some VNone
    ∧ item !! "broken" = Some VNone
    ∧ item !! "text" = Some (VStr "I think").
Proof.
  destruct (unmatched_field_is_none Sample.books_world
              (Sample.page "one" [Sample.q1; Sample.q2])
              (<["broken" := "["]> Sample.selectors) "books" initial_state
              [Sample.q1; Sample.q2] 1 Sample.q2 "tags" ".tag")
    as (data & item & Hdata & _ & Hitem & Htags & _ & _ & Hrest);
    [reflexivity | reflexivity | reflexivity | reflexivity | reflexivity
    | left; reflexivity |].
  exists data, item. split_and!; [exact Hdata | exact Hitem | exact Htags | |].
  - apply (Hrest "broken" "["); reflexivity.
  - apply (Hrest "text" ".text"); reflexivity.
Defined.

(** C7, as amended.  In the per-container path, a field that is not a
    [_container] field and whose selector matches at least one element
    holds the texts of all the matches, in document order, when it is named
    [tags], and the text of the first match otherwise. *)
Theorem matched_field_value (w : world) (soup : Tag)
    (selectors : gmap string string) (website_name : string) (s : state)
    (containers : list Tag) (j : nat) (container : Tag)
    (field selector : string) (first : Tag) (others : list Tag) :
  truthy (container_selector selectors) = true →
  select soup (default EmptyString (container_selector selectors)) = Ok containers →
  containers !! j = Some container →
  selectors !! field = Some selector →
  endswith field "_container" = false →
  select container selector = Ok (first :: others) →
  ∃ data item,
    (extract_data_from_soup w soup selectors website_name s).1 = Ok data
    ∧ data !! j = Some item
    ∧ (field = "tags" →
       item !! field = Some (VList (get_text <$> first :: others)))
    ∧ (field ≠ "tags" → item !! field = Some (VStr (get_text first))).
Proof.
  intros Hcs Hsel Hj Hfield Hc Hmatch.
  rewrite (extract_data_container_path _ _ _ _ _ _ Hcs Hsel). simpl.
  eexists _, _. split; [reflexivity|].
  split; [by rewrite list_lookup_imap, Hj|].
  rewrite extract_item_lookup, Hfield, Hc. unfold field_value. rewrite Hmatch.
  split.
  - intros ->. done.
  - intros Hne. apply String.eqb_neq in Hne. by rewrite Hne.
Qed.

Lemma matched_field_value_witness :
  ∃ data item,
    (extract_data_from_soup Sample.books_world (Sample.page "one" [Sample.q1; Sample.q2])
       Sample.selectors "books" initial_state).1 = Ok data
    ∧ data !! 0%nat = Some item
    ∧ item !! "tags" = Some (VList ["life"; "doubt"; "stage"])
    ∧ item !! "author" = Some (VStr "W. S.").
Proof.
  destruct (matched_field_value Sample.books_world
              (Sample.page "one" [Sample.q1; Sample.q2])
              Sample.selectors "books" initial_state
              [Sample.q1; Sample.q2] 0 Sample.q1 "tags" ".tag"
              (Sample.leaf "life") [Sample.leaf "doubt"; Sample.leaf "stage"])
    as (data & item & Hdata & Hitem & Htags & _);
    [reflexivity | reflexivity | reflexivity | reflexivity | reflexivity
    | reflexivity |].
  exists data, item. split_and!; [exact Hdata | exact Hitem | by apply Htags |].
  destruct (matched_field_value Sample.books_world
              (Sample.page "one" [Sample.q1; Sample.q2])
              Sample.selectors "books" initial_state
              [Sample.q1; Sample.q2] 0 Sample.q1 "author" ".author"
              (Sample.leaf "W. S.") [Sample.leaf "again"])
    as (data' & item' & Hdata' & Hitem' & _ & Hauthor);
    [reflexivity | reflexivity | reflexivity | reflexivity | reflexivity
    | reflexivity |].
  rewrite Hdata in Hdata'. injection Hdata' as <-.
  rewrite Hitem in Hitem'. injection Hitem' as <-.
  by apply Hauthor.
Defined.

(** C7, as stated, fails for a field whose name ends with [_container]: the
    loop skips it, and the item has no such key even though its selector
    matches. *)
Lemma other_field_first_match_counterexample :
  ¬ every_other_field_holds_first_match.
Proof.
  intros Hclaim.
  destruct (Hclaim Sample.books_world (Sample.page "one" [Sample.q1; Sample.q2])
              (<["author_container" := ".author"]> Sample.selectors) "books"
              initial_state [Sample.q1; Sample.q2] 0%nat Sample.q1
              "author_container" ".author"
              (Sample.leaf "W. S.") [Sample.leaf "again"])
    as (data & item & Hdata & Hitem & Hvalue);
    [reflexivity | reflexivity | reflexivity | reflexivity | discriminate
    | reflexivity |].
  assert (Hnone :
    match (extract_data_from_soup Sample.books_world
             (Sample.page "one" [Sample.q1; Sample.q2])
             (<["author_container" := ".author"]> Sample.selectors) "books"
             initial_state).1 with
    | Ok data => match data !! 0%nat with
                 | Some item => item !! "author_container"
                 | None => None
                 end
    | Raise _ => None
    end = None) by (vm_compute; reflexivity).
  rewrite Hdata in Hnone. cbv beta iota in Hnone.
  rewrite Hitem in Hnone. cbv beta iota in Hnone.
  rewrite Hvalue in Hnone. discriminate Hnone.
Qed.

(** C10. The per-container path is taken only when one of the keys
    [quote_container], [book_container], [data_container] is in the selector
    map.  Without these keys the result is the single record of the whole
    page, whose content is the first 1000 characters of the page text at
    most.  In the per-container path no item has a key ending with
    [_container]. *)
Theorem container_path_selection (w : world) (soup : Tag)
    (selectors : gmap string string) (website_name : string) (s : state) :
  (truthy (container_selector selectors) = true →
     is_Some (selectors !! "quote_container")
     ∨ is_Some (selectors !! "book_container")
     ∨ is_Some (selectors !! "data_container"))
  ∧ (selectors !! "quote_container" = None →
     selectors !! "book_container" = None →
     selectors !! "data_container" = None →
     ∃ item content,
       (extract_data_from_soup w soup selectors website_name s).1 = Ok [item]
       ∧ item = page_item website_name soup (utcnow w (ticks s) +:+ "Z")
       ∧ item !! "content" = Some (VStr content)
       ∧ content = str_take 1000 (get_text soup)
       ∧ (String.length content ≤ 1000)%nat)
  ∧ (truthy (container_selector selectors) = true →
     ∀ data item field,
       (extract_data_from_soup w soup selectors website_name s).1 = Ok data →
       item ∈ data →
       endswith field "_container" = true →
       item !! field = None).
Proof.
  split_and!.
  - unfold container_selector, py_or. intros Hcs.
    destruct (selectors !! "quote_container"); [by left; eexists|].
    destruct (selectors !! "book_container"); [by right; left; eexists|].
    destruct (selectors !! "data_container"); [by right; right; eexists|].
    done.
  - intros Hq Hb Hd.
    assert (Hcs : truthy (container_selector selectors) = false).
    { unfold container_selector, py_or. by rewrite Hq, Hb, Hd. }
    rewrite (extract_data_page_path _ _ _ _ _ Hcs). simpl.
    eexists _, _. split_and!; try reflexivity. apply str_take_length.
  - intros Hcs data item field Hdata Hitem Hc.
    unfold extract_data_from_soup in Hdata. rewrite Hcs in Hdata.
    destruct (select soup _) as [containers|e]; simpl in Hdata.
    + rewrite extract_containers_spec in Hdata. simpl in Hdata.
      injection Hdata as <-.
      apply list_elem_of_lookup in Hitem as [j Hj].
      rewrite list_lookup_imap in Hj.
      destruct (containers !! j) as [c|]; [|done]. injection Hj as <-.
      rewrite extract_item_lookup, Hc.
      rewrite new_item_lookup_container by done. by destruct (selectors !! field).
    + injection Hdata as <-. by apply elem_of_nil in Hitem.
Qed.

Lemma container_path_selection_witness :
  ∃ item,
    (extract_data_from_soup Sample.books_world (Sample.page "one" [Sample.q1])
       {[ "item_container" := ".quote"; "text" := ".text" ]} "books"
       initial_state).1 = Ok [item]
    ∧ item !! "content" = Some (VStr "one")
    ∧ item !! "text" = None.
Proof.
  destruct (container_path_selection Sample.books_world
              (Sample.page "one" [Sample.q1])
              {[ "item_container" := ".quote"; "text" := ".text" ]} "books"
              initial_state) as (_ & Hpage & _).
  destruct Hpage as (item & content & Hdata & Hitem & Hcontent & -> & _);
    [reflexivity | reflexivity | reflexivity |].
  exists item. split_and!; [exact Hdata | exact Hcontent |].
  rewrite Hitem. reflexivity.
Defined.

(** C9, as amended.  When no selector field is named [website], [item_id]
    or [scraped_at], every record of the per-container path carries the site
    name, the 1-based position of the item on its page and the UTC reading
    of the clock; the single record of the whole-page path carries the site
    name and the clock reading, and no item index. *)
Theorem extracted_record_provenance (w : world) (soup : Tag)
    (selectors : gmap string string) (website_name : string) (s : state)
    (data : list record) (j : nat) (item : record) :
  selectors !! "website" = None →
  selectors !! "item_id" = None →
  selectors !! "scraped_at" = None →
  (extract_data_from_soup w soup selectors website_name s).1 = Ok data →
  data !! j = Some item →
  item !! "website" = Some (VStr website_name)
  ∧ item !! "scraped_at" = Some (VStr (utcnow w (ticks s + j) +:+ "Z"))
  ∧ item !! "item_id" = (if truthy (container_selector selectors)
                         then Some (VInt (Z.of_nat j + 1)) else None).
Proof.
  intros Hw Hi Ht Hdata Hj. unfold extract_data_from_soup in Hdata.
  destruct (truthy (container_selector selectors)).
  - destruct (select soup _) as [containers|e]; simpl in Hdata.
    + rewrite extract_containers_spec in Hdata. simpl in Hdata.
      injection Hdata as <-. rewrite list_lookup_imap in Hj.
      destruct (containers !! j) as [c|]; [|done]. injection Hj as <-.
      rewrite !extract_item_lookup, Hw, Hi, Ht. done.
    + injection Hdata as <-. done.
  - simpl in Hdata. injection Hdata as <-.
    destruct j as [|j]; [|done]. injection Hj as <-.
    rewrite Nat.add_0_r. done.
Qed.

Lemma extracted_record_provenance_witness :
  ∃ data item,
    (extract_data_from_soup Sample.books_world (Sample.page "one" [Sample.q1; Sample.q2])
       Sample.selectors "books" initial_state).1 = Ok data
    ∧ data !! 1%nat = Some item
    ∧ item !! "website" = Some (VStr "books")
    ∧ item !! "scraped_at" = Some (VStr "2024-05-01T10:00:00+00:00Z")
    ∧ item !! "item_id" = Some (VInt 2).
Proof.
  pose (data := imap (λ (j : nat) container,
                        extract_item Sample.selectors "books" (Z.of_nat j)
                          "2024-05-01T10:00:00+00:00Z" container)
                  [Sample.q1; Sample.q2]).
  assert (Hdata : (extract_data_from_soup Sample.books_world
                     (Sample.page "one" [Sample.q1; Sample.q2])
                     Sample.selectors "books" initial_state).1 = Ok data)
    by (vm_compute; reflexivity).
  assert (Hitem : data !! 1%nat
                  = Some (extract_item Sample.selectors "books" 1
                            "2024-05-01T10:00:00+00:00Z" Sample.q2))
    by reflexivity.
  exists data, (extract_item Sample.selectors "books" 1
                  "2024-05-01T10:00:00+00:00Z" Sample.q2).
  split; [exact Hdata|]. split; [exact Hitem|].
  apply (extracted_record_provenance Sample.books_world
           (Sample.page "one" [Sample.q1; Sample.q2])
           Sample.selectors "books" initial_state data 1);
    [reflexivity | reflexivity | reflexivity | exact Hdata | exact Hitem].
Defined.

(** C9, as stated, fails for the record of the whole-page path: it has no
    item index. *)
Lemma page_record_provenance_counterexample :
  ¬ every_record_carries_provenance.
Proof.
  intros Hclaim.
  destruct (Hclaim Sample.books_world (Sample.page "one" []) ∅ "books"
              initial_state
              [page_item "books" (Sample.page "one" [])
                 "2024-05-01T10:00:00+00:00Z"]
              (page_item "books" (Sample.page "one" [])
                 "2024-05-01T10:00:00+00:00Z"))
    as (_ & [k Hid] & _);
    [reflexivity | apply list_elem_of_here |].
  vm_compute in Hid. discriminate Hid.
Qed.

(** ** The site task *)

(** C8. A site whose [enabled] flag is false yields the empty list at once:
    the state is untouched, so no request is issued and nothing is slept. *)
Theorem disabled_site_is_skipped (w : world) (cfg : scraper_config)
    (website_name : string) (wc : website_config) (s : state) :
  ws_enabled wc = Some false →
  scrape_website w cfg website_name wc s = (Ok [], s)
  ∧ requests (scrape_website w cfg website_name wc s).2 = requests s
  ∧ trace (scrape_website w cfg website_name wc s).2 = trace s.
Proof. intros Hoff. unfold scrape_website. by rewrite Hoff. Qed.

Lemma disabled_site_is_skipped_witness :
  scrape_website Sample.books_world Sample.cfg "books"
    (mkWebsite (Some "Books") None (Some ["/p1"; "/p2"])
       (Some Sample.selectors) None (Some false)) initial_state
  = (Ok [], initial_state).
Proof.
  apply (disabled_site_is_skipped Sample.books_world Sample.cfg "books"
           (mkWebsite (Some "Books") None (Some ["/p1"; "/p2"])
              (Some Sample.selectors) None (Some false)) initial_state).
  reflexivity.
Defined.

(** One turn of the loop over the pages. *)
Lemma scrape_pages_cons w cfg website_name base_url selectors delay page rest
    all_data s :
  scrape_pages w cfg website_name base_url selectors delay (page :: rest) all_data s
  = match get_page_content w cfg (urljoin w base_url page) None s with
    | (Ok (Some soup), s1) =>
        match extract_data_from_soup w soup selectors website_name s1 with
        | (Ok page_data, s2) =>
            scrape_pages w cfg website_name base_url selectors delay rest
              (all_data ++ page_data) (after_delay delay s2)
        | (Raise e, s2) => (Raise e, s2)
        end
    | (Ok None, s1) =>
        scrape_pages w cfg website_name base_url selectors delay rest
          all_data (after_delay delay s1)
    | (Raise e, s1) => (Raise e, s1)
    end.
Proof.
  cbn [scrape_pages]. unfold bind, ret, after_delay, sleep.
  destruct (get_page_content _ _ _ _ _) as [[[soup|]|e] s1]; [| |done].
  - destruct (extract_data_from_soup _ _ _ _ _) as [[page_data|e] s2]; [|done].
    by destruct (0 <? delay).
  - by destruct (0 <? delay).
Qed.

(** The indexes of the items of one page. *)
Lemma extract_data_page_batch w soup selectors website_name s data :
  selectors !! "item_id" = None →
  (extract_data_from_soup w soup selectors website_name s).1 = Ok data →
  page_batch selectors data.
Proof.
  intros Hid Hdata. unfold page_batch, extract_data_from_soup in *.
  destruct (truthy (container_selector selectors)).
  - destruct (select soup _) as [containers|e]; simpl in Hdata.
    + rewrite extract_containers_spec in Hdata. simpl in Hdata.
      injection Hdata as <-. unfold running_item_ids, item_ids.
      rewrite length_imap. apply list_eq. intros j.
      rewrite !list_lookup_fmap, list_lookup_imap.
      destruct (containers !! j) as [c|] eqn:Hj; simpl.
      * rewrite lookup_seq_lt by (by eapply lookup_lt_Some). simpl.
        rewrite extract_item_lookup, Hid.
        replace (Z.of_nat (S j)) with (Z.of_nat j + 1) by lia. done.
      * rewrite lookup_seq_ge by (by apply lookup_ge_None). done.
    + by injection Hdata as <-.
  - simpl in Hdata. injection Hdata as <-. by right.
Qed.

(** The accumulator of the loop over the pages is the concatenation of
    what each page contributed. *)
Lemma scrape_pages_concat w cfg website_name base_url selectors delay pages
    all_data s data :
  selectors !! "item_id" = None →
  (scrape_pages w cfg website_name base_url selectors delay pages all_data s).1
  = Ok data →
  data = all_data
         ++ concat (pages_batches w cfg website_name base_url selectors delay
                      pages s)
  ∧ length (pages_batches w cfg website_name base_url selectors delay pages s)
    = length pages
  ∧ Forall (page_batch selectors)
      (pages_batches w cfg website_name base_url selectors delay pages s).
Proof.
  intros Hid. revert all_data s.
  induction pages as [|page rest IH]; intros all_data s Hdata.
  - simpl in Hdata. injection Hdata as <-. simpl. by rewrite app_nil_r.
  - rewrite scrape_pages_cons in Hdata. cbn [pages_batches].
    destruct (get_page_content _ _ _ _ _) as [[[soup|]|e] s1]; [| |done].
    + destruct (extract_data_from_soup _ _ _ _ _) as [[page_data|e] s2] eqn:Hex;
        [|done].
      destruct (IH _ _ Hdata) as (-> & Hlen & Hall).
      cbn [concat length]. rewrite <- app_assoc.
      split_and!; [done | by rewrite Hlen |].
      constructor; [|done].
      apply (extract_data_page_batch w soup selectors website_name s1); [done|].
      by rewrite Hex.
    + destruct (IH _ _ Hdata) as (-> & Hlen & Hall).
      cbn [concat length app].
      split_and!; [done | by rewrite Hlen |].
      constructor; [|done].
      unfold page_batch. destruct (truthy _); [done | by left].
Qed.

(** A batch indexed from 1 starts with the index 1. *)
Lemma running_item_ids_first (first : record) (others : list record) :
  running_item_ids (first :: others) → first !! "item_id" = Some (VInt 1).
Proof. unfold running_item_ids, item_ids. simpl. by intros [= ->]. Qed.

(** C2, as amended.  When no selector field is named [item_id], the records
    of an enabled site that returns are the concatenation, in page order,
    of what the extractor returned for each page of the site, one batch per
    page (empty for a page whose fetch returned nothing).  In the
    per-container path the indexes of the batch of a page are exactly 1..k,
    k the size of that batch, so the first record of every page that has
    records carries the index 1: the counter starts again on every page
    and does not run across the site. *)
Theorem site_item_ids_restart_per_page (w : world) (cfg : scraper_config)
    (website_name : string) (wc : website_config) (s : state)
    (data : list record) :
  default ∅ (ws_selectors wc) !! "item_id" = None →
  default true (ws_enabled wc) = true →
  (scrape_website w cfg website_name wc s).1 = Ok data →
  ∃ base_url,
    ws_base_url wc = Some base_url
    ∧ let batches :=
        pages_batches w cfg website_name base_url (default ∅ (ws_selectors wc))
          (default (default 2 (cfg_default_delay cfg)) (ws_delay wc))
          (default ["/"] (ws_pages wc)) s in
      data = concat batches
      ∧ length batches = length (default ["/"] (ws_pages wc))
      ∧ Forall (page_batch (default ∅ (ws_selectors wc))) batches
      ∧ (truthy (container_selector (default ∅ (ws_selectors wc))) = true →
         ∀ first others, first :: others ∈ batches →
           running_item_ids (first :: others)
           ∧ first !! "item_id" = Some (VInt 1)).
Proof.
  intros Hid Hon Hdata. unfold scrape_website in Hdata.
  rewrite Hon in Hdata. simpl in Hdata.
  destruct (ws_base_url wc) as [base_url|]; [|done].
  exists base_url. split; [done|].
  unfold bind, ret in Hdata.
  destruct (scrape_pages_concat _ _ _ _ _ _ _ _ _ _ Hid Hdata)
    as (Hcat & Hlen & Hall).
  simpl. split_and!; [done | done | done |].
  intros Hcs first others Hin.
  rewrite Forall_forall in Hall. specialize (Hall _ Hin).
  unfold page_batch in Hall. rewrite Hcs in Hall.
  split; [done | by eapply running_item_ids_first].
Qed.

Lemma site_item_ids_restart_per_page_witness :
  ∃ data page1 page2,
    (scrape_website Sample.books_world Sample.cfg "books" Sample.books
       initial_state).1 = Ok data
    ∧ pages_batches Sample.books_world Sample.cfg "books" "http://books"
        Sample.selectors 0 ["/p1"; "/p2"] initial_state = [page1; page2]
    ∧ data = page1 ++ page2
    ∧ item_ids page1 = [Some (VInt 1); Some (VInt 2)]
    ∧ item_ids page2 = [Some (VInt 1)].
Proof.
  pose (data := recorded (scrape_website Sample.books_world Sample.cfg "books"
                             Sample.books initial_state).1).
  pose (page1 := imap (λ (j : nat) container,
                         extract_item Sample.selectors "books" (Z.of_nat j)
                           "2024-05-01T10:00:00+00:00Z" container)
                   [Sample.q1; Sample.q2]).
  pose (page2 := imap (λ (j : nat) container,
                         extract_item Sample.selectors "books" (Z.of_nat j)
                           "2024-05-01T10:00:00+00:00Z" container)
                   [Sample.q3]).
  assert (Hdata : (scrape_website Sample.books_world Sample.cfg "books"
                     Sample.books initial_state).1 = Ok data)
    by (vm_compute; reflexivity).
  assert (Hbatches :
    pages_batches Sample.books_world Sample.cfg "books" "http://books"
      (default ∅ (ws_selectors Sample.books))
      (default (default 2 (cfg_default_delay Sample.cfg)) (ws_delay Sample.books))
      (default ["/"] (ws_pages Sample.books)) initial_state = [page1; page2])
    by (vm_compute; reflexivity).
  destruct (site_item_ids_restart_per_page Sample.books_world Sample.cfg
              "books" Sample.books initial_state data)
    as (base_url & Hbase & Hcat & _ & _ & Hfirst);
    [reflexivity | reflexivity | exact Hdata |].
  injection Hbase as <-. rewrite Hbatches in Hcat, Hfirst.
  exists data, page1, page2.
  split; [exact Hdata|]. split; [exact Hbatches|].
  split; [etrans; [exact Hcat | cbn [concat]; by rewrite app_nil_r]|].
  split.
  - apply (Hfirst eq_refl (extract_item Sample.selectors "books" 0
                             "2024-05-01T10:00:00+00:00Z" Sample.q1)
             [extract_item Sample.selectors "books" 1
                "2024-05-01T10:00:00+00:00Z" Sample.q2]).
    apply list_elem_of_here.
  - apply (Hfirst eq_refl (extract_item Sample.selectors "books" 0
                             "2024-05-01T10:00:00+00:00Z" Sample.q3) []).
    apply list_elem_of_further, list_elem_of_here.
Defined.

(** C2, as stated, fails on a site of two pages with two items on the first
    and one on the second: the indexes are 1, 2, 1. *)
Lemma running_item_ids_counterexample :
  ¬ site_item_ids_are_running.
Proof.
  intros Hclaim.
  pose (data := recorded (scrape_website Sample.books_world Sample.cfg "books"
                             Sample.books initial_state).1).
  assert (Hdata : (scrape_website Sample.books_world Sample.cfg "books"
                     Sample.books initial_state).1 = Ok data)
    by (vm_compute; reflexivity).
  assert (Hids : item_ids data = [Some (VInt 1); Some (VInt 2); Some (VInt 1)])
    by (vm_compute; reflexivity).
  assert (Hlen : length data = 3%nat) by (vm_compute; reflexivity).
  specialize (Hclaim _ _ _ _ _ _ Hdata). unfold running_item_ids in Hclaim.
  rewrite Hids, Hlen in Hclaim. discriminate Hclaim.
Qed.

(** ** The reporter *)

(** Total number of records of a mapping. *)
Lemma total_len_insert (m : gmap string (list record)) name data :
  m !! name = None →
  map_fold (λ _ d acc, acc + len d) 0 (<[name := data]> m)
  = map_fold (λ _ d acc, acc + len d) 0 m + len data.
Proof.
  intros Hfresh. rewrite map_fold_insert_L; [done| |done].
  intros. lia.
Qed.

(** The report in closed form: one entry per site, and the total of the
    lengths. *)
Lemma generate_report_spec (ts : string) (scraped_data : gmap string (list record)) :
  generate_report ts scraped_data
  = mkReport (ts +:+ "Z") "CrypticLuminary" (Z.of_nat (size scraped_data))
      (entry_of <$> scraped_data)
      (map_fold (λ _ d acc, acc + len d) 0 scraped_data).
Proof.
  unfold generate_report. generalize (Z.of_nat (size scraped_data)) as n. intros n.
  apply (map_fold_weak_ind (λ (r : report) (m : gmap string (list record)),
    r = mkReport (ts +:+ "Z") "CrypticLuminary" n (entry_of <$> m)
          (map_fold (λ _ d acc, acc + len d) 0 m))).
  - by rewrite fmap_empty, map_fold_empty.
  - intros name data m r Hfresh ->. unfold report_site. simpl.
    by rewrite fmap_insert, total_len_insert.
Qed.

Lemma sum_items_scraped_entries (m : gmap string (list record)) :
  sum_items_scraped (entry_of <$> m) = map_fold (λ _ d acc, acc + len d) 0 m.
Proof. unfold sum_items_scraped. by rewrite map_fold_fmap. Qed.

(** C5. In the report of a mapping from site names to record lists,
    [total_items] is the sum of the [items_scraped] of the per-site
    entries, the entry of each site counts the records of that site, and
    [total_websites] is the number of sites of the mapping. *)
Theorem generate_report_totals (ts : string)
    (scraped_data : gmap string (list record)) :
  total_items (generate_report ts scraped_data)
  = sum_items_scraped (report_websites (generate_report ts scraped_data))
  ∧ (∀ name,
       items_scraped <$> report_websites (generate_report ts scraped_data) !! name
       = len <$> scraped_data !! name)
  ∧ total_websites (generate_report ts scraped_data)
    = Z.of_nat (size scraped_data).
Proof.
  rewrite generate_report_spec. simpl. split_and!.
  - by rewrite sum_items_scraped_entries.
  - intros name. rewrite lookup_fmap. by destruct (scraped_data !! name).
  - done.
Qed.

(** ** The scheduler *)

Lemma collect_insert (all_scraped_data : gmap string (list record)) (f : future) :
  collect all_scraped_data f = <[f.1 := recorded f.2]> all_scraped_data.
Proof. unfold collect, recorded. by destruct (f.2). Qed.

(** Collecting futures with distinct names: each name gets the outcome of
    its own future, the other names are left as they were. *)
Lemma foldl_collect_lookup (fs : list future) (acc : gmap string (list record))
    (name : string) :
  NoDup fs.*1 →
  (∀ res, (name, res) ∈ fs → foldl collect acc fs !! name = Some (recorded res))
  ∧ (name ∉ fs.*1 → foldl collect acc fs !! name = acc !! name).
Proof.
  revert acc. induction fs as [|[k r] fs IH]; intros acc Hnd.
  - split; [by intros res Hin%elem_of_nil | done].
  - simpl in *. apply NoDup_cons in Hnd as [Hk Hnd].
    rewrite collect_insert. simpl.
    destruct (IH (<[k := recorded r]> acc) Hnd) as [IHin IHout].
    split.
    + intros res [Heq|Hin]%elem_of_cons; [|by apply IHin].
      injection Heq as -> ->. rewrite IHout by done. apply lookup_insert_eq.
    + intros Hout. apply not_elem_of_cons in Hout as [Hne Hout].
      rewrite IHout by done. by apply lookup_insert_ne.
Qed.

Section SchedulerFacts.

Variable as_completed : list future → list future.
Hypothesis as_completed_perm : ∀ fs, as_completed fs ≡ₚ fs.

(** The mapping that the scheduler builds does not depend on the order of
    completion: every site holds the outcome of its own task. *)
Lemma collected_lookup (w : string → world) (cfg : config) (name : string) :
  foldl collect ∅ (as_completed (future_to_website w cfg)) !! name
  = (λ wc, recorded (submit w (scraper cfg) name wc)) <$> websites cfg !! name.
Proof.
  set (fm := map_imap (λ name wc, Some (submit w (scraper cfg) name wc))
               (websites cfg)).
  assert (Hfm : fm !! name = (λ wc, submit w (scraper cfg) name wc)
                             <$> websites cfg !! name).
  { unfold fm. rewrite map_lookup_imap. by destruct (websites cfg !! name). }
  assert (Hperm := as_completed_perm (future_to_website w cfg)).
  assert (Hnd : NoDup (as_completed (future_to_website w cfg)).*1).
  { rewrite Hperm. apply NoDup_fst_map_to_list. }
  destruct (foldl_collect_lookup _ ∅ name Hnd) as [Hin Hout].
  destruct (fm !! name) as [res|] eqn:Hres.
  - rewrite (Hin res).
    + destruct (websites cfg !! name); simpl in *; congruence.
    + rewrite Hperm. by apply elem_of_map_to_list.
  - rewrite Hout, lookup_empty.
    + by destruct (websites cfg !! name).
    + intros [[k res] [-> Hel]]%list_elem_of_fmap. simpl in Hres.
      rewrite Hperm in Hel. apply elem_of_map_to_list in Hel.
      unfold fm in Hres. congruence.
Qed.

Lemma scrape_all_websites_spec (w : string → world) (cfg : config) :
  0 < default 3 (cfg_max_workers (scraper cfg)) →
  scrape_all_websites as_completed w cfg
  = Ok ((λ p : string * website_config, recorded (submit w (scraper cfg) p.1 p.2))
        <$> map_imap (λ name wc, Some (name, wc)) (websites cfg)).
Proof.
  intros Hworkers. unfold scrape_all_websites.
  destruct (_ <=? 0) eqn:Hle; [lia|]. f_equal. apply map_eq. intros name.
  rewrite collected_lookup, lookup_fmap, map_lookup_imap.
  by destruct (websites cfg !! name).
Qed.

End SchedulerFacts.

Lemma scraped_data_dom (w : string → world) (cfg : config)
    (scraped_data : gmap string (list record)) :
  (∀ name, scraped_data !! name
           = (λ wc, recorded (submit w (scraper cfg) name wc))
             <$> websites cfg !! name) →
  dom scraped_data = dom (websites cfg).
Proof.
  intros Hlookup. apply set_eq. intros name.
  by rewrite !elem_of_dom, Hlookup, fmap_is_Some.
Qed.

(** C4. Whatever the order of completion, the mapping built by the
    scheduler gives every configured site the outcome of its own task, a
    task that raises being recorded with the empty list; the entry of a site
    is the same in every crawl in which that site sees the same world,
    whatever the other tasks do.  The run returns a report that covers every
    configured site, even when every task raises. *)
Theorem site_failures_are_isolated (as_completed : list future → list future)
    (w : string → world) (cfg : config) (ts : string) :
  (∀ fs, as_completed fs ≡ₚ fs) →
  0 < default 3 (cfg_max_workers (scraper cfg)) →
  ∃ scraped_data r,
    scrape_all_websites as_completed w cfg = Ok scraped_data
    ∧ run as_completed w cfg ts = Ok r
    ∧ (∀ name, scraped_data !! name
               = (λ wc, recorded (submit w (scraper cfg) name wc))
                 <$> websites cfg !! name)
    ∧ (∀ name wc e, websites cfg !! name = Some wc →
         submit w (scraper cfg) name wc = Raise e →
         scraped_data !! name = Some [])
    ∧ (∀ (as_completed' : list future → list future) (w' : string → world)
         scraped_data' name,
         (∀ fs, as_completed' fs ≡ₚ fs) →
         w' name = w name →
         scrape_all_websites as_completed' w' cfg = Ok scraped_data' →
         scraped_data' !! name = scraped_data !! name)
    ∧ total_websites r = Z.of_nat (size (websites cfg))
    ∧ dom (report_websites r) = dom (websites cfg).
Proof.
  intros Hperm Hworkers.
  assert (Hrun : ∀ ac w0, (∀ fs, ac fs ≡ₚ fs) →
            scrape_all_websites ac w0 cfg
            = Ok (foldl collect ∅ (ac (future_to_website w0 cfg)))).
  { intros ac w0 _. unfold scrape_all_websites.
    destruct (_ <=? 0) eqn:Hle; [lia | done]. }
  exists (foldl collect ∅ (as_completed (future_to_website w cfg))).
  eexists. split; [by apply Hrun|].
  split; [unfold run; by rewrite Hrun|].
  assert (Hlookup := collected_lookup as_completed Hperm w cfg).
  assert (Hdom := scraped_data_dom w cfg _ Hlookup).
  split_and!.
  - exact Hlookup.
  - intros name wc e Hwc Hraise. rewrite Hlookup, Hwc. simpl. by rewrite Hraise.
  - intros ac' w' sd' name Hperm' Hsame Hsd'.
    rewrite Hrun in Hsd' by done. injection Hsd' as <-.
    rewrite Hlookup, (collected_lookup ac' Hperm').
    unfold submit. by rewrite Hsame.
  - rewrite generate_report_spec. simpl.
    by rewrite <- !size_dom, Hdom.
  - rewrite generate_report_spec. simpl. by rewrite dom_fmap_L.
Qed.

(** A crawl in which the task of every site raises still yields a report. *)
Lemma site_failures_are_isolated_witness :
  ∃ scraped_data r,
    scrape_all_websites reverse (λ _, Crawl.quotes_world)
      (mkConfig Sample.cfg {[ "library" := Crawl.library; "other" := Crawl.library ]})
    = Ok scraped_data
    ∧ run reverse (λ _, Crawl.quotes_world)
        (mkConfig Sample.cfg {[ "library" := Crawl.library; "other" := Crawl.library ]})
        "2024-05-01T10:05:00+00:00" = Ok r
    ∧ scraped_data !! "library" = Some []
    ∧ scraped_data !! "other" = Some []
    ∧ total_websites r = 2.
Proof.
  destruct (site_failures_are_isolated reverse (λ _, Crawl.quotes_world)
              (mkConfig Sample.cfg
                 {[ "library" := Crawl.library; "other" := Crawl.library ]})
              "2024-05-01T10:05:00+00:00")
    as (scraped_data & r & Hdata & Hrun & _ & Hraise & _ & Htotal & _);
    [apply reverse_Permutation | reflexivity |].
  exists scraped_data, r. split_and!; [exact Hdata | exact Hrun | | | exact Htotal].
  - apply (Hraise "library" Crawl.library RuntimeError); reflexivity.
  - apply (Hraise "other" Crawl.library RuntimeError); reflexivity.
Defined.

(** The loop over the pages, cut in two. *)
Lemma scrape_pages_app w cfg website_name base_url selectors delay
    pages_done pages_left all_data s :
  scrape_pages w cfg website_name base_url selectors delay
    (pages_done ++ pages_left) all_data s
  = match scrape_pages w cfg website_name base_url selectors delay
            pages_done all_data s with
    | (Ok all_data', s') =>
        scrape_pages w cfg website_name base_url selectors delay
          pages_left all_data' s'
    | (Raise e, s') => (Raise e, s')
    end.
Proof.
  revert all_data s. induction pages_done as [|page rest IH]; intros all_data s.
  - done.
  - rewrite <- app_comm_cons, !scrape_pages_cons.
    destruct (get_page_content _ _ _ _ _) as [[[soup|]|e] s1]; [| |done].
    + destruct (extract_data_from_soup _ _ _ _ _) as [[page_data|e] s2]; [|done].
      apply IH.
    + apply IH.
Qed.

(** A task that raises in the middle of its run raises as a whole: what it
    had accumulated is lost with it. *)
Lemma raises_after_raises (w : string → world) (cfg : scraper_config)
    (name : string) (wc : website_config) (n : nat) :
  raises_after (w name) cfg name wc n →
  ∃ e, submit w cfg name wc = Raise e.
Proof.
  intros (base_url & pages_done & page & pages_left & all_data & s1 & e
          & Hon & Hbase & Hpages & Hdone & _ & Hfetch).
  exists e. unfold submit, scrape_website.
  rewrite Hon, Hbase, Hpages. simpl. unfold bind at 1, ret at 1.
  rewrite scrape_pages_app, Hdone, scrape_pages_cons.
  destruct (get_page_content _ _ _ _ _) as [[[soup|]|e'] s2];
    simpl in Hfetch; [discriminate | discriminate |].
  simpl. by injection Hfetch as ->.
Qed.

(** The sample crawl: the task of the first site raises at its second page,
    with the two records of its first page at hand; the task of the second
    site returns five records. *)
Lemma quotes_raises_after_two :
  raises_after (Crawl.worlds "quotes") Sample.cfg "quotes" Crawl.quotes 2.
Proof.
  pose (done := scrape_pages Crawl.quotes_world Sample.cfg "quotes"
                  "http://quotes" Sample.selectors 0 ["/p1"] [] initial_state).
  exists "http://quotes", ["/p1"], "/p2", [], (recorded done.1), done.2,
    RuntimeError.
  split_and!; [reflexivity | reflexivity | reflexivity | ..];
    vm_compute; reflexivity.
Qed.

Lemma library_returns_five :
  submit Crawl.worlds Sample.cfg "library" Crawl.library
  = Ok (recorded (submit Crawl.worlds Sample.cfg "library" Crawl.library))
  ∧ length (recorded (submit Crawl.worlds Sample.cfg "library" Crawl.library))
    = 5%nat.
Proof. split; vm_compute; reflexivity. Qed.

(** C1, as amended.  Of two sites, the one whose task raises in the middle
    of its run is recorded with the empty list, what it had accumulated
    being lost, and reported with status [no_data] and no item; the one
    that completes with 5 records is recorded with them and reported with
    status [success]; [total_items] is 5. *)
Theorem faulted_site_recorded_empty (as_completed : list future → list future)
    (w : string → world) (cfg : config) (ts : string) (a b : string)
    (wa wb : website_config) (data_b : list record) (n : nat) :
  (∀ fs, as_completed fs ≡ₚ fs) →
  0 < default 3 (cfg_max_workers (scraper cfg)) →
  a ≠ b →
  websites cfg = {[ a := wa; b := wb ]} →
  raises_after (w a) (scraper cfg) a wa n →
  submit w (scraper cfg) b wb = Ok data_b →
  length data_b = 5%nat →
  ∃ scraped_data r,
    scrape_all_websites as_completed w cfg = Ok scraped_data
    ∧ run as_completed w cfg ts = Ok r
    ∧ scraped_data !! a = Some []
    ∧ report_websites r !! a = Some (mkEntry 0 "no_data")
    ∧ scraped_data !! b = Some data_b
    ∧ report_websites r !! b = Some (mkEntry 5 "success")
    ∧ total_items r = 5.
Proof.
  intros Hperm Hworkers Hab Hweb Hfault Hb Hlen.
  destruct (raises_after_raises w (scraper cfg) a wa n Hfault) as [e Ha].
  assert (Hrun : scrape_all_websites as_completed w cfg
                 = Ok (foldl collect ∅ (as_completed (future_to_website w cfg)))).
  { unfold scrape_all_websites. destruct (_ <=? 0) eqn:Hle; [lia | done]. }
  assert (Hdata : foldl collect ∅ (as_completed (future_to_website w cfg))
                  = {[ a := []; b := data_b ]}).
  { apply map_eq. intros name.
    rewrite (collected_lookup as_completed Hperm), Hweb.
    destruct (decide (name = a)) as [->|Hna].
    - rewrite !lookup_insert_eq. simpl. by rewrite Ha.
    - rewrite !lookup_insert_ne by done.
      destruct (decide (name = b)) as [->|Hnb].
      + rewrite !lookup_singleton_eq. simpl. by rewrite Hb.
      + by rewrite !lookup_singleton_ne. }
  assert (Hlen' : len data_b = 5) by (unfold len; lia).
  eexists _, _. split; [exact Hrun|]. unfold run. rewrite Hrun, Hdata.
  split; [reflexivity|]. rewrite generate_report_spec. simpl.
  split_and!.
  - apply lookup_insert_eq.
  - by rewrite lookup_fmap, lookup_insert_eq.
  - rewrite lookup_insert_ne by done. apply lookup_singleton_eq.
  - rewrite lookup_fmap, lookup_insert_ne, lookup_singleton_eq by done.
    simpl. unfold entry_of. by rewrite Hlen'.
  - rewrite total_len_insert by (by apply lookup_singleton_ne).
    rewrite map_fold_singleton, Hlen'. done.
Qed.

Lemma faulted_site_recorded_empty_witness :
  ∃ scraped_data r,
    scrape_all_websites reverse Crawl.worlds Crawl.crawl = Ok scraped_data
    ∧ run reverse Crawl.worlds Crawl.crawl "2024-05-01T10:05:00+00:00" = Ok r
    ∧ scraped_data !! "quotes" = Some []
    ∧ report_websites r !! "quotes" = Some (mkEntry 0 "no_data")
    ∧ length <$> scraped_data !! "library" = Some 5%nat
    ∧ report_websites r !! "library" = Some (mkEntry 5 "success")
    ∧ total_items r = 5.
Proof.
  pose (data_b := recorded (submit Crawl.worlds Sample.cfg "library"
                               Crawl.library)).
  destruct library_returns_five as [Hb Hlen].
  assert (Hfault := quotes_raises_after_two).
  destruct (faulted_site_recorded_empty reverse Crawl.worlds Crawl.crawl
              "2024-05-01T10:05:00+00:00" "quotes" "library"
              Crawl.quotes Crawl.library data_b 2)
    as (scraped_data & r & Hdata & Hrun & Ha & Hra & Hsb & Hrb & Htotal);
    [apply reverse_Permutation | reflexivity | discriminate | reflexivity
    | exact Hfault | exact Hb | exact Hlen |].
  exists scraped_data, r.
  split_and!; try assumption. by rewrite Hsb, <- Hlen.
Defined.

(** C1, as stated, fails on the sample crawl: the site whose second page
    makes the fetch raise, after two records from its first page, is
    reported with status [no_data]. *)
Lemma faulted_site_error_status_counterexample :
  ¬ faulted_site_reported_as_error.
Proof.
  intros Hclaim.
  pose (data_b := recorded (submit Crawl.worlds Sample.cfg "library"
                               Crawl.library)).
  destruct library_returns_five as [Hb Hlen].
  assert (Hfault := quotes_raises_after_two).
  destruct (Hclaim reverse Crawl.worlds Crawl.crawl
              "2024-05-01T10:05:00+00:00" "quotes" "library"
              Crawl.quotes Crawl.library data_b)
    as (scraped_data & r & _ & Hrun & _ & Hstatus & _);
    [apply reverse_Permutation | reflexivity | discriminate | reflexivity
    | exact Hfault | exact Hb | exact Hlen |].
  assert (Hno_data :
    match run reverse Crawl.worlds Crawl.crawl "2024-05-01T10:05:00+00:00" with
    | Ok r => status <$> report_websites r !! "quotes"
    | Raise _ => None
    end = Some "no_data") by (vm_compute; reflexivity).
  rewrite Hrun in Hno_data. cbv beta iota in Hno_data.
  rewrite Hstatus in Hno_data. discriminate Hno_data.
Qed.

(** * Further properties of the code *)

(** ** The fetcher, beyond exhaustion *)

(** The attempt that is not answered by a request exception ends the loop:
    [k] failed attempts, then the outcome of attempt [k + 1]. *)
Lemma fetch_attempts_settles w url timeout (k n a : nat) s outcome :
  (∀ j : nat, (j < k)%nat →
     session_get w (requests s + j) url = Raise RequestException) →
  session_get w (requests s + k) url = outcome →
  outcome ≠ Raise RequestException →
  fetch_attempts w url timeout (Z.of_nat (a + k + n))
    (Z.of_nat <$> seq a (S (k + n))) s
  = (settled outcome,
     mkState (requests s + S k) (ticks s)
       (trace s ++ EvGet url timeout ::
          flat_map (λ j, [EvSleep (Z.of_nat j * 2); EvGet url timeout])
            (seq (S a) k))).
Proof.
  assert (Hcons : ∀ a n, Z.of_nat <$> seq a (S n)
                           = Z.of_nat a :: (Z.of_nat <$> seq (S a) n)) by done.
  revert a s. induction k as [|k IH]; intros a s Hfail Hout Hne.
  - rewrite Hcons. cbn [fetch_attempts]. unfold http_get.
    rewrite Nat.add_0_r in Hout. rewrite Hout.
    replace (requests s + 1)%nat with (S (requests s)) by lia.
    destruct outcome as [soup|[]]; done.
  - rewrite Hcons, fetch_attempts_failed
      by (rewrite <- (Hfail 0%nat) by lia; f_equal; lia).
    replace (Z.of_nat a <? Z.of_nat (a + S k + n)) with true
      by (symmetry; apply Z.ltb_lt; lia).
    replace (a + S k + n)%nat with (S a + k + n)%nat by lia.
    rewrite IH; [| | |done].
    + simpl. rewrite <- !app_assoc. simpl.
      replace ((Z.of_nat a + 1) * 2) with (Z.of_nat (S a) * 2) by lia.
      do 2 f_equal. lia.
    + intros j Hj. simpl. rewrite <- (Hfail (S j)) by lia. f_equal. lia.
    + simpl. rewrite <- Hout. f_equal. lia.
Qed.

Lemma get_page_content_settles w cfg url retries s (k : nat) outcome :
  Z.of_nat k ≤ default (default 3 (cfg_retries cfg)) retries →
  (∀ j : nat, (j < k)%nat →
     session_get w (requests s + j) url = Raise RequestException) →
  session_get w (requests s + k) url = outcome →
  outcome ≠ Raise RequestException →
  get_page_content w cfg url retries s
  = (settled outcome,
     mkState (requests s + S k) (ticks s)
       (trace s ++ exhausted_trace url (default 30 (cfg_timeout cfg)) k)).
Proof.
  intros Hk Hfail Hout Hne. unfold get_page_content, range.
  set (r := default (default 3 (cfg_retries cfg)) retries) in *.
  assert (Hrun := fetch_attempts_settles w url (default 30 (cfg_timeout cfg))
                    k (Z.to_nat r - k) 0 s outcome Hfail Hout Hne).
  replace (Z.of_nat (0 + k + (Z.to_nat r - k))) with r in Hrun by lia.
  replace (S (k + (Z.to_nat r - k))) with (Z.to_nat (r + 1)) in Hrun by lia.
  exact Hrun.
Qed.

(** X1. When the first [k] attempts fail with a request exception and
    attempt [k + 1] (within the [retries + 1] allowed) is answered, the
    fetcher returns that page after exactly [k + 1] requests, having slept
    2, 4, .., 2k seconds between them; with [k = 0] it issues one request
    and does not sleep. *)
Theorem fetch_returns_first_answer (w : world) (cfg : scraper_config)
    (url : string) (retries : option Z) (s : state) (k : nat) (soup : Tag) :
  Z.of_nat k ≤ default (default 3 (cfg_retries cfg)) retries →
  (∀ j : nat, (j < k)%nat →
     session_get w (requests s + j) url = Raise RequestException) →
  session_get w (requests s + k) url = Ok soup →
  get_page_content w cfg url retries s
  = (Ok (Some soup),
     mkState (requests s + S k) (ticks s)
       (trace s ++ exhausted_trace url (default 30 (cfg_timeout cfg)) k))
  ∧ attempts_made (exhausted_trace url (default 30 (cfg_timeout cfg)) k) = S k
  ∧ waits (exhausted_trace url (default 30 (cfg_timeout cfg)) k)
    = (λ j, Z.of_nat j * 2) <$> seq 1 k
  ∧ last (exhausted_trace url (default 30 (cfg_timeout cfg)) k)
    = Some (EvGet url (default 30 (cfg_timeout cfg))).
Proof.
  intros Hk Hfail Hout. split_and!.
  - by rewrite (get_page_content_settles w cfg url retries s k (Ok soup)).
  - unfold exhausted_trace. simpl. by rewrite exhausted_tail_attempts.
  - unfold exhausted_trace. simpl. apply exhausted_tail_waits.
  - apply exhausted_trace_last.
Qed.

Lemma fetch_returns_first_answer_witness :
  get_page_content
    Extra.slow_world
    Sample.cfg "http://x/" None initial_state
  = (Ok (Some (Sample.page "late" [])),
     mkState 3 0 [EvGet "http://x/" 30; EvSleep 2; EvGet "http://x/" 30;
                  EvSleep 4; EvGet "http://x/" 30]).
Proof.
  destruct (fetch_returns_first_answer
              Extra.slow_world
              Sample.cfg "http://x/" None initial_state 2
              (Sample.page "late" []))
    as (Hrun & _); [simpl; lia | | reflexivity |].
  - intros [|[|j]] Hj; [reflexivity | reflexivity | lia].
  - exact Hrun.
Defined.

Lemma sum_backoff (a n : nat) :
  foldr Z.add 0 ((λ j, Z.of_nat j * 2) <$> seq a n)
  = Z.of_nat n * (2 * Z.of_nat a + Z.of_nat n - 1).
Proof.
  revert a. induction n as [|n IH]; intros a; [simpl; lia|].
  cbn [seq fmap list_fmap foldr].
  change (list_fmap nat Z (λ j, Z.of_nat j * 2) (seq (S a) n))
    with ((λ j, Z.of_nat j * 2) <$> seq (S a) n).
  rewrite IH. lia.
Qed.

Lemma total_wait_app (tr1 tr2 : list event) :
  total_wait (tr1 ++ tr2) = total_wait tr1 + total_wait tr2.
Proof.
  unfold total_wait, waits. rewrite omap_app.
  induction (omap _ tr1) as [|x l IH]; simpl; lia.
Qed.

Lemma total_wait_exhausted url timeout (k : nat) :
  total_wait (exhausted_trace url timeout k) = Z.of_nat k * (Z.of_nat k + 1).
Proof.
  unfold total_wait, exhausted_trace.
  change (waits (EvGet url timeout :: ?l)) with (waits l).
  cbn [waits omap list_omap].
  change (list_omap _ _ _ ?l) with (waits l).
  rewrite exhausted_tail_waits, sum_backoff. lia.
Qed.

(** X2. An exception of the request that is not a request exception is not
    retried: it reaches the caller at once, after the failed attempts that
    came before it and their waits. *)
Theorem other_exception_is_not_retried (w : world) (cfg : scraper_config)
    (url : string) (retries : option Z) (s : state) (k : nat) (e : exn) :
  Z.of_nat k ≤ default (default 3 (cfg_retries cfg)) retries →
  (∀ j : nat, (j < k)%nat →
     session_get w (requests s + j) url = Raise RequestException) →
  session_get w (requests s + k) url = Raise e →
  e ≠ RequestException →
  (get_page_content w cfg url retries s).1 = Raise e
  ∧ requests (get_page_content w cfg url retries s).2 = (requests s + S k)%nat
  ∧ total_wait (trace (get_page_content w cfg url retries s).2)
    = total_wait (trace s) + Z.of_nat k * (Z.of_nat k + 1).
Proof.
  intros Hk Hfail Hout Hne.
  rewrite (get_page_content_settles w cfg url retries s k (Raise e))
    by (done || congruence).
  simpl. by rewrite total_wait_app, total_wait_exhausted.
Qed.

Lemma other_exception_is_not_retried_witness :
  (get_page_content Crawl.quotes_world Sample.cfg "http://quotes/p2" None
     initial_state).1 = Raise RuntimeError
  ∧ requests (get_page_content Crawl.quotes_world Sample.cfg "http://quotes/p2"
                None initial_state).2 = 1%nat.
Proof.
  destruct (other_exception_is_not_retried Crawl.quotes_world Sample.cfg
              "http://quotes/p2" None initial_state 0 RuntimeError)
    as (Hres & Hreq & _); [simpl; lia | intros j Hj; lia | reflexivity | done |].
  split; [exact Hres | exact Hreq].
Defined.

(** X3. With a negative retry count the loop body never runs: no request is
    issued, nothing is slept, and the fetcher returns [None]. *)
Theorem negative_retries_issue_no_request (w : world) (cfg : scraper_config)
    (url : string) (retries : option Z) (s : state) :
  default (default 3 (cfg_retries cfg)) retries < 0 →
  get_page_content w cfg url retries s = (Ok None, s).
Proof.
  intros Hneg. unfold get_page_content, range.
  by replace (Z.to_nat (default (default 3 (cfg_retries cfg)) retries + 1))
    with 0%nat by lia.
Qed.

Lemma negative_retries_issue_no_request_witness :
  get_page_content Sample.books_world Sample.cfg "http://books/p1" (Some (-1))
    initial_state = (Ok None, initial_state).
Proof.
  apply (negative_retries_issue_no_request Sample.books_world Sample.cfg
           "http://books/p1" (Some (-1)) initial_state).
  simpl. lia.
Defined.

(** X4. A fetch that exhausts its [r] retries has slept [r * (r + 1)]
    seconds in all. *)
Theorem exhausted_fetch_total_wait (w : world) (cfg : scraper_config)
    (url : string) (retries : option Z) (s : state) :
  let r := default (default 3 (cfg_retries cfg)) retries in
  0 ≤ r →
  (∀ k : nat, Z.of_nat k ≤ r →
     session_get w (requests s + k) url = Raise RequestException) →
  total_wait (trace (get_page_content w cfg url retries s).2)
  = total_wait (trace s) + r * (r + 1).
Proof.
  intros r Hr Hfail. unfold get_page_content, range. fold r.
  assert (Hrun := fetch_attempts_exhausted w url (default 30 (cfg_timeout cfg))
                    (Z.to_nat r) 0 s).
  rewrite Nat.add_0_l, Z2Nat.id in Hrun by done.
  replace (Z.to_nat (r + 1)) with (S (Z.to_nat r)) by lia.
  rewrite Hrun by (intros k Hk; apply Hfail; lia).
  simpl. rewrite total_wait_app.
  change (EvGet url (default 30 (cfg_timeout cfg)) :: ?l)
    with (exhausted_trace url (default 30 (cfg_timeout cfg)) (Z.to_nat r)).
  rewrite total_wait_exhausted. lia.
Qed.

Lemma exhausted_fetch_total_wait_witness :
  total_wait (trace (get_page_content Sample.dead_world Sample.cfg "http://x/"
                       (Some 5) initial_state).2) = 30.
Proof.
  apply (exhausted_fetch_total_wait Sample.dead_world Sample.cfg "http://x/"
           (Some 5) initial_state); [simpl; lia | intros; reflexivity].
Defined.

(** ** The extractor, beyond the claims *)

(** X5. A container key whose selector is the empty string counts as
    absent.  When each of the three container keys is absent or empty, the
    whole-page path is taken, and the clock is read once. *)
Theorem empty_container_selector_is_absent (w : world) (soup : Tag)
    (selectors : gmap string string) (website_name : string) (s : state) :
  (selectors !! "quote_container" = None
   ∨ selectors !! "quote_container" = Some EmptyString) →
  (selectors !! "book_container" = None
   ∨ selectors !! "book_container" = Some EmptyString) →
  (selectors !! "data_container" = None
   ∨ selectors !! "data_container" = Some EmptyString) →
  extract_data_from_soup w soup selectors website_name s
  = (Ok [page_item website_name soup (utcnow w (ticks s) +:+ "Z")],
     mkState (requests s) (S (ticks s)) (trace s)).
Proof.
  intros Hq Hb Hd. apply extract_data_page_path.
  unfold container_selector, py_or.
  by destruct Hq as [-> | ->], Hb as [-> | ->], Hd as [-> | ->].
Qed.

Lemma empty_container_selector_is_absent_witness :
  (extract_data_from_soup Sample.books_world (Sample.page "one" [Sample.q1])
     {[ "quote_container" := EmptyString; "text" := ".text" ]} "books"
     initial_state).1
  = Ok [page_item "books" (Sample.page "one" [Sample.q1])
          "2024-05-01T10:00:00+00:00Z"].
Proof.
  rewrite (empty_container_selector_is_absent Sample.books_world
             (Sample.page "one" [Sample.q1])
             {[ "quote_container" := EmptyString; "text" := ".text" ]} "books"
             initial_state);
    [reflexivity | right; reflexivity | left; reflexivity | left; reflexivity].
Defined.

(** X6. The containers are selected with the first non-empty one of
    [quote_container], [book_container], [data_container], in this order: a
    later key is used only when the earlier ones are absent or empty.  The
    records are those of the elements that this selector matches. *)
Theorem container_selector_precedence (w : world) (soup : Tag)
    (selectors : gmap string string) (website_name : string) (s : state)
    (selector : string) (containers : list Tag) :
  selector ≠ EmptyString →
  selectors !! "quote_container" = Some selector
  ∨ (truthy (selectors !! "quote_container") = false
     ∧ selectors !! "book_container" = Some selector)
  ∨ (truthy (selectors !! "quote_container") = false
     ∧ truthy (selectors !! "book_container") = false
     ∧ selectors !! "data_container" = Some selector) →
  select soup selector = Ok containers →
  container_selector selectors = Some selector
  ∧ (extract_data_from_soup w soup selectors website_name s).1
    = Ok (imap (λ j container,
                  extract_item selectors website_name (Z.of_nat j)
                    (utcnow w (ticks s + j) +:+ "Z") container)
            containers).
Proof.
  intros Hne Hkey Hsel. apply String.eqb_neq in Hne.
  assert (Hcs : container_selector selectors = Some selector).
  { unfold container_selector, py_or.
    destruct Hkey as [-> | [[-> ->] | (-> & -> & ->)]]; simpl;
      by rewrite ?Hne. }
  split; [done|].
  rewrite (extract_data_container_path w soup selectors website_name s containers);
    [done | by rewrite Hcs; simpl; rewrite Hne | by rewrite Hcs].
Qed.

Lemma container_selector_precedence_witness :
  ∃ data,
    (extract_data_from_soup Sample.books_world Extra.mixed_page
       {[ "quote_container" := EmptyString; "book_container" := ".book";
          "data_container" := ".row" ]} "books" initial_state).1 = Ok data
    ∧ length data = 3%nat.
Proof.
  destruct (container_selector_precedence Sample.books_world Extra.mixed_page
              {[ "quote_container" := EmptyString; "book_container" := ".book";
                 "data_container" := ".row" ]} "books" initial_state ".book"
              [Sample.q1; Sample.q2; Sample.q3]) as [_ Hdata];
    [done | right; left; split; reflexivity | reflexivity |].
  eexists. split; [exact Hdata | reflexivity].
Defined.

(** X7. In the per-container path the extractor yields one record per
    matched container, reading the clock once per record; when the
    selection of the containers raises, it yields the empty list and the
    state is untouched.  It never raises. *)
Theorem one_record_per_container (w : world) (soup : Tag)
    (selectors : gmap string string) (website_name : string) (s : state) :
  truthy (container_selector selectors) = true →
  match select soup (default EmptyString (container_selector selectors)) with
  | Ok containers =>
      ∃ data,
        extract_data_from_soup w soup selectors website_name s
        = (Ok data,
           mkState (requests s) (ticks s + length containers) (trace s))
        ∧ length data = length containers
  | Raise _ =>
      extract_data_from_soup w soup selectors website_name s = (Ok [], s)
  end.
Proof.
  intros Hcs.
  destruct (select soup _) as [containers|e] eqn:Hsel.
  - rewrite (extract_data_container_path _ _ _ _ _ _ Hcs Hsel).
    eexists. split; [reflexivity|]. apply length_imap.
  - unfold extract_data_from_soup. by rewrite Hcs, Hsel.
Qed.

Lemma one_record_per_container_witness :
  extract_data_from_soup Sample.books_world Extra.broken_page
    {[ "quote_container" := ".quote"; "text" := ".text" ]} "books" initial_state
  = (Ok [], initial_state).
Proof.
  exact (one_record_per_container Sample.books_world Extra.broken_page
           {[ "quote_container" := ".quote"; "text" := ".text" ]} "books"
           initial_state eq_refl).
Defined.

Lemma new_item_is_Some website_name k scraped_at (f : string) :
  is_Some (new_item website_name k scraped_at !! f)
  ↔ f = "website" ∨ f = "item_id" ∨ f = "scraped_at".
Proof.
  split.
  - intros [v Hv]. unfold new_item in Hv.
    destruct (decide (f = "website")) as [|Hw]; [by left|].
    rewrite lookup_insert_ne in Hv by done.
    destruct (decide (f = "item_id")) as [|Hi]; [by right; left|].
    rewrite lookup_insert_ne in Hv by done.
    destruct (decide (f = "scraped_at")) as [|Ht]; [by right; right|].
    by rewrite lookup_singleton_ne in Hv.
  - intros [-> | [-> | ->]]; by eexists.
Qed.

Lemma extract_item_dom selectors website_name i scraped_at container :
  dom (extract_item selectors website_name i scraped_at container)
  = {[ "website"; "item_id"; "scraped_at" ]}
    ∪ filter (λ f, endswith f "_container" = false) (dom selectors).
Proof.
  apply set_eq. intros f.
  rewrite elem_of_dom, extract_item_lookup, elem_of_union, elem_of_filter,
    !elem_of_union, !elem_of_singleton, elem_of_dom.
  destruct (selectors !! f) as [sel|] eqn:Hsel.
  - destruct (endswith f "_container") eqn:Hc.
    + rewrite new_item_is_Some. split.
      * intros [Hw | [Hi | Ht]]; left; auto.
      * intros [[[Hw | Hi] | Ht] | [Hno _]]; [auto | auto | auto | discriminate].
    + split; [intros _; right; eauto | by eexists].
  - rewrite new_item_is_Some. split.
    + intros [Hw | [Hi | Ht]]; left; auto.
    + intros [[[Hw | Hi] | Ht] | [_ Hno]];
        [auto | auto | auto | by apply is_Some_None in Hno].
Qed.

(** X8. In the per-container path every record has the same keys: the
    three keys [website], [item_id], [scraped_at], and the fields of the
    selector map whose name does not end with [_container]. *)
Theorem item_keys (w : world) (soup : Tag) (selectors : gmap string string)
    (website_name : string) (s : state) (data : list (gmap string value))
    (item : gmap string value) :
  truthy (container_selector selectors) = true →
  (extract_data_from_soup w soup selectors website_name s).1 = Ok data →
  item ∈ data →
  dom item
  = {[ "website"; "item_id"; "scraped_at" ]}
    ∪ filter (λ f, endswith f "_container" = false) (dom selectors).
Proof.
  intros Hcs Hdata Hitem. unfold extract_data_from_soup in Hdata.
  rewrite Hcs in Hdata.
  destruct (select soup _) as [containers|e]; simpl in Hdata.
  - rewrite extract_containers_spec in Hdata. simpl in Hdata.
    injection Hdata as <-.
    apply list_elem_of_lookup in Hitem as [j Hj].
    rewrite list_lookup_imap in Hj.
    destruct (containers !! j) as [c|]; [|done]. injection Hj as <-.
    apply extract_item_dom.
  - injection Hdata as <-. by apply elem_of_nil in Hitem.
Qed.

Lemma item_keys_witness :
  dom (extract_item Sample.selectors "books" 1 "2024-05-01T10:00:00+00:00Z"
         Sample.q2)
  = {[ "website"; "item_id"; "scraped_at"; "text"; "author"; "tags" ]}.
Proof.
  etrans.
  - apply (item_keys Sample.books_world
             (Sample.page "one" [Sample.q1; Sample.q2])
             Sample.selectors "books" initial_state
             (imap (λ (j : nat) container,
                      extract_item Sample.selectors "books" (Z.of_nat j)
                        "2024-05-01T10:00:00+00:00Z" container)
                [Sample.q1; Sample.q2]));
      [reflexivity | |].
    + rewrite (extract_data_container_path _ _ _ _ _ [Sample.q1; Sample.q2]);
        reflexivity.
    + apply list_elem_of_further, list_elem_of_here.
  - vm_compute. reflexivity.
Defined.

(** X9. A selector field named like one of the keys that every item starts
    with takes the place of that key: the item holds the extracted value
    under it, not the site name, the index or the timestamp. *)
Theorem selector_field_shadows_provenance (w : world) (soup : Tag)
    (selectors : gmap string string) (website_name : string) (s : state)
    (containers : list Tag) (j : nat) (container : Tag)
    (key selector : string) :
  truthy (container_selector selectors) = true →
  select soup (default EmptyString (container_selector selectors)) = Ok containers →
  containers !! j = Some container →
  key = "website" ∨ key = "item_id" ∨ key = "scraped_at" →
  selectors !! key = Some selector →
  ∃ data item,
    (extract_data_from_soup w soup selectors website_name s).1 = Ok data
    ∧ data !! j = Some item
    ∧ item !! key = Some (field_value container key selector).
Proof.
  intros Hcs Hsel Hj Hkey Hfield.
  rewrite (extract_data_container_path _ _ _ _ _ _ Hcs Hsel). simpl.
  eexists _, _. split; [reflexivity|].
  split; [by rewrite list_lookup_imap, Hj|].
  rewrite extract_item_lookup, Hfield.
  by destruct Hkey as [-> | [-> | ->]].
Qed.

Lemma selector_field_shadows_provenance_witness :
  ∃ data item,
    (extract_data_from_soup Sample.books_world (Sample.page "one" [Sample.q1])
       (<["website" := ".author"]> Sample.selectors) "books" initial_state).1
    = Ok data
    ∧ data !! 0%nat = Some item
    ∧ item !! "website" = Some (VStr "W. S.").
Proof.
  apply (selector_field_shadows_provenance Sample.books_world
           (Sample.page "one" [Sample.q1])
           (<["website" := ".author"]> Sample.selectors) "books" initial_state
           [Sample.q1] 0 Sample.q1 "website" ".author");
    [reflexivity | reflexivity | reflexivity | by left | reflexivity].
Defined.

Lemma extract_data_state w soup selectors website_name s :
  ∃ data,
    (extract_data_from_soup w soup selectors website_name s).1 = Ok data
    ∧ requests (extract_data_from_soup w soup selectors website_name s).2
      = requests s
    ∧ trace (extract_data_from_soup w soup selectors website_name s).2
      = trace s
    ∧ ticks (extract_data_from_soup w soup selectors website_name s).2
      = (ticks s + length data)%nat.
Proof.
  unfold extract_data_from_soup.
  destruct (truthy (container_selector selectors)).
  - destruct (select soup _) as [containers|e].
    + rewrite extract_containers_spec. simpl. eexists. split; [reflexivity|].
      by rewrite length_imap.
    + exists []. simpl. split_and!; auto with lia.
  - simpl. eexists. split; [reflexivity|]. simpl. split_and!; auto with lia.
Qed.

(** X10. Extracting issues no request and does not sleep; it reads the
    clock once per record it returns, and it always returns. *)
Theorem extraction_only_reads_the_clock (w : world) (soup : Tag)
    (selectors : gmap string string) (website_name : string) (s : state) :
  ∃ data,
    (extract_data_from_soup w soup selectors website_name s).1 = Ok data
    ∧ requests (extract_data_from_soup w soup selectors website_name s).2
      = requests s
    ∧ trace (extract_data_from_soup w soup selectors website_name s).2
      = trace s
    ∧ ticks (extract_data_from_soup w soup selectors website_name s).2
      = (ticks s + length data)%nat.
Proof. apply extract_data_state. Qed.

(** ** The site task, beyond the claims *)

Lemma get_page_content_state w cfg url retries s :
  (requests (get_page_content w cfg url retries s).2
   ≤ requests s + Z.to_nat (default (default 3%Z (cfg_retries cfg)) retries + 1))%nat
  ∧ ticks (get_page_content w cfg url retries s).2 = ticks s.
Proof.
  unfold get_page_content.
  destruct (fetch_attempts_bound w url (default 30%Z (cfg_timeout cfg))
              (default (default 3%Z (cfg_retries cfg)) retries)
              (range (default (default 3%Z (cfg_retries cfg)) retries + 1)) s)
    as (added & _ & Hle & Hreq & Htk).
  unfold range in Hle. rewrite length_fmap, length_seq in Hle.
  split; [lia | done].
Qed.

Lemma after_delay_requests delay s : requests (after_delay delay s) = requests s.
Proof. unfold after_delay. by destruct (0 <? delay). Qed.

(** Requests of the loop over the pages. *)
Lemma scrape_pages_requests w cfg website_name base_url selectors delay pages
    all_data s :
  (requests (scrape_pages w cfg website_name base_url selectors delay pages
               all_data s).2
   ≤ requests s + length pages * Z.to_nat (default 3%Z (cfg_retries cfg) + 1))%nat.
Proof.
  revert all_data s. induction pages as [|page rest IH]; intros all_data s.
  - simpl. lia.
  - rewrite scrape_pages_cons.
    destruct (get_page_content_state w cfg (urljoin w base_url page) None s)
      as [Hreq _]. simpl in Hreq.
    destruct (get_page_content _ _ _ _ _) as [[[soup|]|e] s1]; simpl in *.
    + destruct (extract_data_state w soup selectors website_name s1)
        as (data & Hdata & Hreq1 & _).
      destruct (extract_data_from_soup _ _ _ _ _) as [[page_data|e] s2];
        simpl in *; [|lia].
      etrans; [apply IH|]. rewrite after_delay_requests. lia.
    + etrans; [apply IH|]. rewrite after_delay_requests. lia.
    + lia.
Qed.

(** X11. Whatever the network answers, and whether the task returns or
    raises, a site task issues at most [retries + 1] requests per page. *)
Theorem site_requests_bound (w : world) (cfg : scraper_config)
    (website_name : string) (wc : website_config) (s : state) :
  (requests (scrape_website w cfg website_name wc s).2
   ≤ requests s
     + length (default ["/"] (ws_pages wc))
       * Z.to_nat (default 3%Z (cfg_retries cfg) + 1))%nat.
Proof.
  unfold scrape_website.
  destruct (negb (default true (ws_enabled wc))); [simpl; lia|].
  destruct (ws_base_url wc) as [base_url|]; [|simpl; lia].
  unfold bind, ret. apply scrape_pages_requests.
Qed.

Lemma get_page_content_exhausted w cfg url s :
  0 ≤ default 3%Z (cfg_retries cfg) →
  (∀ n url, session_get w n url = Raise RequestException) →
  get_page_content w cfg url None s
  = (Ok None,
     mkState (requests s + S (Z.to_nat (default 3%Z (cfg_retries cfg)))) (ticks s)
       (trace s ++ exhausted_trace url (default 30%Z (cfg_timeout cfg))
                     (Z.to_nat (default 3%Z (cfg_retries cfg))))).
Proof.
  intros Hr Hdead. unfold get_page_content, range. simpl.
  assert (Hrun := fetch_attempts_exhausted w url (default 30%Z (cfg_timeout cfg))
                    (Z.to_nat (default 3%Z (cfg_retries cfg))) 0 s).
  rewrite Nat.add_0_l, Z2Nat.id in Hrun by done.
  replace (Z.to_nat (default 3%Z (cfg_retries cfg) + 1))
    with (S (Z.to_nat (default 3%Z (cfg_retries cfg)))) by lia.
  by rewrite Hrun.
Qed.

Lemma scrape_pages_dead w cfg website_name base_url selectors delay pages
    all_data s :
  0 ≤ default 3%Z (cfg_retries cfg) →
  (∀ n url, session_get w n url = Raise RequestException) →
  (scrape_pages w cfg website_name base_url selectors delay pages all_data s).1
  = Ok all_data
  ∧ requests (scrape_pages w cfg website_name base_url selectors delay pages
                all_data s).2
    = (requests s + length pages * S (Z.to_nat (default 3%Z (cfg_retries cfg))))%nat.
Proof.
  intros Hr Hdead. revert s. induction pages as [|page rest IH]; intros s.
  - simpl. split; [done | lia].
  - rewrite scrape_pages_cons, get_page_content_exhausted by done.
    destruct (IH (after_delay delay
                    (mkState (requests s + S (Z.to_nat (default 3%Z (cfg_retries cfg))))
                       (ticks s)
                       (trace s ++ exhausted_trace (urljoin w base_url page)
                                     (default 30%Z (cfg_timeout cfg))
                                     (Z.to_nat (default 3%Z (cfg_retries cfg)))))))
      as [Hres Hreq].
    split; [exact Hres|]. rewrite Hreq, after_delay_requests. simpl. lia.
Qed.

(** X12. On a network where every request fails with a request exception,
    an enabled site returns the empty list without raising: every page is
    tried, with [retries + 1] requests each. *)
Theorem dead_network_site_is_empty (w : world) (cfg : scraper_config)
    (website_name : string) (wc : website_config) (s : state) (base_url : string) :
  default true (ws_enabled wc) = true →
  ws_base_url wc = Some base_url →
  0 ≤ default 3%Z (cfg_retries cfg) →
  (∀ n url, session_get w n url = Raise RequestException) →
  (scrape_website w cfg website_name wc s).1 = Ok []
  ∧ requests (scrape_website w cfg website_name wc s).2
    = (requests s
       + length (default ["/"] (ws_pages wc))
         * S (Z.to_nat (default 3%Z (cfg_retries cfg))))%nat.
Proof.
  intros Hon Hbase Hr Hdead. unfold scrape_website. rewrite Hon, Hbase. simpl.
  unfold bind at 1, ret at 1. unfold bind at 1, ret at 1.
  by apply scrape_pages_dead.
Qed.

Lemma dead_network_site_is_empty_witness :
  (scrape_website Sample.dead_world Sample.cfg "books" Sample.books
     initial_state).1 = Ok []
  ∧ requests (scrape_website Sample.dead_world Sample.cfg "books" Sample.books
                initial_state).2 = 6%nat.
Proof.
  apply (dead_network_site_is_empty Sample.dead_world Sample.cfg "books"
           Sample.books initial_state "http://books");
    [reflexivity | reflexivity | simpl; lia | reflexivity].
Defined.

Lemma after_delay_trace delay s :
  trace (after_delay delay s)
  = trace s ++ (if 0 <? delay then [EvSleep delay] else []).
Proof.
  unfold after_delay. destruct (0 <? delay); [done|]. by rewrite app_nil_r.
Qed.

Lemma scrape_pages_last w cfg website_name base_url selectors delay pages
    all_data s data :
  0 < delay →
  pages ≠ [] →
  (scrape_pages w cfg website_name base_url selectors delay pages all_data s).1
  = Ok data →
  last (trace (scrape_pages w cfg website_name base_url selectors delay pages
                 all_data s).2) = Some (EvSleep delay).
Proof.
  intros Hdelay. apply Z.ltb_lt in Hdelay.
  revert all_data s. induction pages as [|page rest IH];
    intros all_data s Hne Hdata; [done|].
  rewrite scrape_pages_cons in *.
  assert (Hend : ∀ all_data' s',
    (scrape_pages w cfg website_name base_url selectors delay rest all_data'
       (after_delay delay s')).1 = Ok data →
    last (trace (scrape_pages w cfg website_name base_url selectors delay rest
                   all_data' (after_delay delay s')).2) = Some (EvSleep delay)).
  { intros all_data' s' Hrest. destruct rest as [|page' rest'].
    - simpl. rewrite after_delay_trace, Hdelay. apply last_snoc.
    - by apply IH. }
  destruct (get_page_content _ _ _ _ _) as [[[soup|]|e] s1]; [| |done].
  - destruct (extract_data_from_soup _ _ _ _ _) as [[page_data|e] s2]; [|done].
    by apply Hend.
  - by apply Hend.
Qed.

(** X13. With a positive delay, a site task that returns has slept the
    delay after its last page too: the sleep is the last thing it did. *)
Theorem delay_follows_the_last_page (w : world) (cfg : scraper_config)
    (website_name : string) (wc : website_config) (s : state)
    (data : list (gmap string value)) :
  default true (ws_enabled wc) = true →
  0 < default (default 2 (cfg_default_delay cfg)) (ws_delay wc) →
  default ["/"] (ws_pages wc) ≠ [] →
  (scrape_website w cfg website_name wc s).1 = Ok data →
  last (trace (scrape_website w cfg website_name wc s).2)
  = Some (EvSleep (default (default 2 (cfg_default_delay cfg)) (ws_delay wc))).
Proof.
  intros Hon Hdelay Hpages Hdata. unfold scrape_website in *.
  rewrite Hon in *. simpl in *.
  destruct (ws_base_url wc) as [base_url|]; [|done].
  unfold bind, ret in *. by apply scrape_pages_last with (data := data).
Qed.

Lemma delay_follows_the_last_page_witness :
  last (trace (scrape_website Sample.books_world
                 (mkScraper None None None (Some 0)) "books" Sample.books
                 initial_state).2) = Some (EvSleep 2).
Proof.
  apply (delay_follows_the_last_page Sample.books_world
           (mkScraper None None None (Some 0)) "books" Sample.books
           initial_state
           (recorded (scrape_website Sample.books_world
                        (mkScraper None None None (Some 0)) "books" Sample.books
                        initial_state).1));
    [reflexivity | simpl; lia | discriminate | vm_compute; reflexivity].
Defined.

Lemma get_page_content_answered w cfg url s soup :
  0 ≤ default 3 (cfg_retries cfg) →
  session_get w (requests s) url = Ok soup →
  get_page_content w cfg url None s
  = (Ok (Some soup),
     mkState (S (requests s)) (ticks s)
       (trace s ++ [EvGet url (default 30 (cfg_timeout cfg))])).
Proof.
  intros Hr Hget.
  rewrite (get_page_content_settles w cfg url None s 0 (Ok soup));
    [| simpl; lia | intros j Hj; lia | by rewrite Nat.add_0_r | done].
  simpl. do 2 f_equal. lia.
Qed.

Lemma scrape_pages_polite w cfg website_name base_url selectors delay pages
    all_data s :
  0 ≤ default 3 (cfg_retries cfg) →
  (∀ n url, ∃ soup, session_get w n url = Ok soup) →
  ∃ data,
    (scrape_pages w cfg website_name base_url selectors delay pages all_data s).1
    = Ok data
    ∧ trace (scrape_pages w cfg website_name base_url selectors delay pages
               all_data s).2
      = trace s ++ polite_trace w cfg base_url delay pages
    ∧ requests (scrape_pages w cfg website_name base_url selectors delay pages
                  all_data s).2 = (requests s + length pages)%nat.
Proof.
  intros Hr Hup. revert all_data s.
  induction pages as [|page rest IH]; intros all_data s.
  - exists all_data. simpl. rewrite app_nil_r. split_and!; auto with lia.
  - rewrite scrape_pages_cons.
    destruct (Hup (requests s) (urljoin w base_url page)) as [soup Hget].
    rewrite (get_page_content_answered _ _ _ _ _ Hr Hget).
    match goal with |- context [extract_data_from_soup _ _ _ _ ?s0] =>
      destruct (extract_data_state w soup selectors website_name s0)
        as (page_data & Hdata & Hreq & Htr & _) end.
    destruct (extract_data_from_soup _ _ _ _ _) as [[page_data'|e] s2];
      simpl in *; [|done].
    destruct (IH (all_data ++ page_data') (after_delay delay s2))
      as (data & Hres & Htr' & Hreq').
    exists data. split; [done|].
    rewrite Htr', Hreq', after_delay_trace, after_delay_requests, Htr, Hreq.
    split; [|lia]. by rewrite <- !app_assoc.
Qed.

(** X14. When every request is answered at once, an enabled site returns,
    and what it did is exactly this: one request per page, in page order,
    to the URL that [urljoin] makes of the base URL and the page, each
    followed by a sleep of the delay when the delay is positive. *)
Theorem answered_site_is_polite (w : world) (cfg : scraper_config)
    (website_name : string) (wc : website_config) (s : state) (base_url : string) :
  default true (ws_enabled wc) = true →
  ws_base_url wc = Some base_url →
  0 ≤ default 3 (cfg_retries cfg) →
  (∀ n url, ∃ soup, session_get w n url = Ok soup) →
  ∃ data,
    (scrape_website w cfg website_name wc s).1 = Ok data
    ∧ trace (scrape_website w cfg website_name wc s).2
      = trace s
        ++ polite_trace w cfg base_url
             (default (default 2 (cfg_default_delay cfg)) (ws_delay wc))
             (default ["/"] (ws_pages wc)).
Proof.
  intros Hon Hbase Hr Hup. unfold scrape_website. rewrite Hon, Hbase. simpl.
  unfold bind at 1, ret at 1. unfold bind at 1, ret at 1.
  destruct (scrape_pages_polite w cfg website_name base_url
              (default ∅ (ws_selectors wc))
              (default (default 2 (cfg_default_delay cfg)) (ws_delay wc))
              (default ["/"] (ws_pages wc)) [] s Hr Hup)
    as (data & Hres & Htr & _).
  by exists data.
Qed.

Lemma answered_site_is_polite_witness :
  trace (scrape_website Crawl.library_world (mkScraper None (Some 1) None None)
           "library"
           (mkWebsite None (Some "http://library") (Some ["/a"; "/b"])
              (Some Sample.selectors) None None) initial_state).2
  = [EvGet "http://library/a" 30; EvSleep 1;
     EvGet "http://library/b" 30; EvSleep 1].
Proof.
  destruct (answered_site_is_polite Crawl.library_world
              (mkScraper None (Some 1) None None) "library"
              (mkWebsite None (Some "http://library") (Some ["/a"; "/b"])
                 (Some Sample.selectors) None None) initial_state
              "http://library") as (data & _ & Htr);
    [reflexivity | reflexivity | simpl; lia | intros n url; by eexists |].
  exact Htr.
Defined.

(** ** The scheduler and the reporter, beyond the claims *)

(** X15. A site that is disabled, or that is enabled and has no
    [base_url], does not disturb the crawl: it is in the result with the
    empty list, and the report counts it with status [no_data]. *)
Theorem skipped_site_is_reported_no_data
    (as_completed : list future → list future) (w : string → world)
    (cfg : config) (ts : string) (name : string) (wc : website_config) :
  (∀ fs, as_completed fs ≡ₚ fs) →
  0 < default 3 (cfg_max_workers (scraper cfg)) →
  websites cfg !! name = Some wc →
  ws_enabled wc = Some false
  ∨ (default true (ws_enabled wc) = true ∧ ws_base_url wc = None) →
  ∃ scraped_data r,
    scrape_all_websites as_completed w cfg = Ok scraped_data
    ∧ run as_completed w cfg ts = Ok r
    ∧ scraped_data !! name = Some []
    ∧ report_websites r !! name = Some (mkEntry 0 "no_data").
Proof.
  intros Hperm Hworkers Hwc Hskip.
  assert (Hrun : scrape_all_websites as_completed w cfg
                 = Ok (foldl collect ∅ (as_completed (future_to_website w cfg)))).
  { unfold scrape_all_websites. destruct (_ <=? 0) eqn:Hle; [lia | done]. }
  assert (Hempty : recorded (submit w (scraper cfg) name wc) = []).
  { unfold submit, scrape_website.
    destruct Hskip as [-> | [-> ->]]; reflexivity. }
  assert (Hname : foldl collect ∅ (as_completed (future_to_website w cfg)) !! name
                  = Some []).
  { rewrite (collected_lookup as_completed Hperm), Hwc. simpl. by rewrite Hempty. }
  eexists _, _. split; [exact Hrun|]. unfold run. rewrite Hrun.
  split; [reflexivity|]. split; [exact Hname|].
  rewrite generate_report_spec. simpl. by rewrite lookup_fmap, Hname.
Qed.

Lemma skipped_site_is_reported_no_data_witness :
  ∃ scraped_data r,
    scrape_all_websites reverse Crawl.worlds
      (mkConfig Sample.cfg
         {[ "library" := Crawl.library;
            "draft" := mkWebsite None None None None None None ]})
    = Ok scraped_data
    ∧ run reverse Crawl.worlds
        (mkConfig Sample.cfg
           {[ "library" := Crawl.library;
              "draft" := mkWebsite None None None None None None ]})
        "2024-05-01T10:05:00+00:00" = Ok r
    ∧ scraped_data !! "draft" = Some []
    ∧ report_websites r !! "draft" = Some (mkEntry 0 "no_data").
Proof.
  apply (skipped_site_is_reported_no_data reverse Crawl.worlds
           (mkConfig Sample.cfg
              {[ "library" := Crawl.library;
                 "draft" := mkWebsite None None None None None None ]})
           "2024-05-01T10:05:00+00:00" "draft"
           (mkWebsite None None None None None None));
    [apply reverse_Permutation | reflexivity | reflexivity
    | right; split; reflexivity].
Defined.

(** X16. A configuration without sites gives the empty result and a report
    of zero sites and zero items. *)
Theorem empty_crawl (as_completed : list future → list future)
    (w : string → world) (cfg : config) (ts : string) :
  (∀ fs, as_completed fs ≡ₚ fs) →
  0 < default 3 (cfg_max_workers (scraper cfg)) →
  websites cfg = ∅ →
  scrape_all_websites as_completed w cfg = Ok ∅
  ∧ run as_completed w cfg ts
    = Ok (mkReport (ts +:+ "Z") "CrypticLuminary" 0 ∅ 0).
Proof.
  intros Hperm Hworkers Hnone.
  assert (Hrun : scrape_all_websites as_completed w cfg = Ok ∅).
  { unfold scrape_all_websites. destruct (_ <=? 0) eqn:Hle; [lia|].
    f_equal. apply map_eq. intros name.
    by rewrite (collected_lookup as_completed Hperm), Hnone, !lookup_empty. }
  split; [exact Hrun|]. unfold run. rewrite Hrun, generate_report_spec.
  by rewrite fmap_empty, map_fold_empty, map_size_empty.
Qed.

(** The configuration that [load_config] falls back to has no site. *)
Lemma empty_crawl_witness :
  run reverse Crawl.worlds
    (crawl_config (load_config (Raise RuntimeError)))
    "2024-05-01T10:05:00+00:00"
  = Ok (mkReport "2024-05-01T10:05:00+00:00Z" "CrypticLuminary" 0 ∅ 0).
Proof.
  destruct (empty_crawl reverse Crawl.worlds
              (crawl_config (load_config (Raise RuntimeError)))
              "2024-05-01T10:05:00+00:00") as [_ Hrun];
    [apply reverse_Permutation | reflexivity | reflexivity |].
  exact Hrun.
Defined.

(** X17. The status of a site in the report is decided by its count alone:
    [success] exactly when the site has records, [no_data] exactly when it
    has none; no other status is ever written. *)
Theorem report_status_by_count (ts : string)
    (scraped_data : gmap string (list (gmap string value)))
    (name : string) (e : site_entry) :
  report_websites (generate_report ts scraped_data) !! name = Some e →
  ∃ data,
    scraped_data !! name = Some data
    ∧ items_scraped e = len data
    ∧ (status e = "success" ↔ data ≠ [])
    ∧ (status e = "no_data" ↔ data = [])
    ∧ (status e = "success" ∨ status e = "no_data").
Proof.
  rewrite generate_report_spec. simpl. rewrite lookup_fmap.
  destruct (scraped_data !! name) as [data|]; [|done].
  simpl. intros [= <-]. exists data. split; [done|]. split; [done|].
  unfold entry_of, len. simpl. destruct data as [|item data]; simpl.
  - split_and!; [split; done | split; done | by right].
  - split_and!; [split; done | split; done | by left].
Qed.

Lemma report_status_by_count_witness :
  ∃ data,
    ({[ "a" := [(∅ : gmap string value)]; "b" := [] ]}
       : gmap string (list (gmap string value))) !! "b" = Some data
    ∧ data = [].
Proof.
  destruct (report_status_by_count "t"
              {[ "a" := [(∅ : gmap string value)]; "b" := [] ]} "b"
              (mkEntry 0 "no_data")) as (data & Hdata & _ & _ & Hnone & _);
    [reflexivity|].
  exists data. split; [exact Hdata | by apply Hnone].
Defined.

Lemma counts_decide_the_report (ts : string)
    (data1 data2 : gmap string (list (gmap string value))) :
  (∀ name, length <$> data1 !! name = length <$> data2 !! name) →
  generate_report ts data1 = generate_report ts data2.
Proof.
  intros Hsame.
  assert (Hentries : entry_of <$> data1 = entry_of <$> data2).
  { apply map_eq. intros name. rewrite !lookup_fmap.
    specialize (Hsame name).
    destruct (data1 !! name) as [d1|], (data2 !! name) as [d2|];
      simpl in *; try done.
    injection Hsame as Hlen. unfold entry_of, len. by rewrite Hlen. }
  rewrite !generate_report_spec.
  rewrite <- !sum_items_scraped_entries, Hentries.
  by rewrite <- (map_size_fmap entry_of data1), Hentries, map_size_fmap.
Qed.

(** X18. The report sees the records only through their number: two
    results with the same sites and the same number of records per site
    give the same report. *)
Theorem report_depends_on_counts (ts : string)
    (data1 data2 : gmap string (list (gmap string value))) :
  (∀ name, length <$> data1 !! name = length <$> data2 !! name) →
  generate_report ts data1 = generate_report ts data2.
Proof. apply counts_decide_the_report. Qed.

Lemma report_depends_on_counts_witness :
  generate_report "t"
    {[ "a" := [({[ "tags" := VList ["x"; "y"] ]} : gmap string value)] ]}
  = generate_report "t"
      {[ "a" := [({[ "tags" := VStr "x, y" ]} : gmap string value)] ]}.
Proof.
  apply report_depends_on_counts. intros name.
  destruct (decide (name = "a")) as [->|Hne].
  - by rewrite !lookup_singleton_eq.
  - by rewrite !lookup_singleton_ne.
Defined.

(** ** The writers *)

(** X19. After [save_sqlite] has gone over an item, no value of the item
    is a list: a list of texts has become their comma-separated text, every
    other value and every key is as before; going over it again changes
    nothing. *)
Theorem flatten_item_leaves_no_list (item : gmap string value) :
  (∀ key l, flatten_item item !! key ≠ Some (VList l))
  ∧ dom (flatten_item item) = dom item
  ∧ (∀ key l, item !! key = Some (VList l) →
       flatten_item item !! key = Some (VStr (join ", " l)))
  ∧ (∀ key v, item !! key = Some v → (∀ l, v ≠ VList l) →
       flatten_item item !! key = Some v)
  ∧ flatten_item (flatten_item item) = flatten_item item.
Proof.
  unfold flatten_item. split_and!.
  - intros key l. rewrite lookup_fmap.
    destruct (item !! key) as [[]|]; simpl; congruence.
  - apply dom_fmap_L.
  - intros key l Hkey. by rewrite lookup_fmap, Hkey.
  - intros key v Hkey Hv. rewrite lookup_fmap, Hkey. simpl.
    destruct v; try done. by destruct (Hv l).
  - rewrite <- map_fmap_compose. apply map_fmap_ext.
    intros key v _. by destruct v.
Qed.

Lemma flatten_item_leaves_no_list_witness :
  flatten_item {[ "tags" := VList ["x"; "y"]; "text" := VStr "t" ]} !! "tags"
  = Some (VStr "x, y").
Proof.
  destruct (flatten_item_leaves_no_list
              {[ "tags" := VList ["x"; "y"]; "text" := VStr "t" ]})
    as (_ & _ & Hlist & _).
  apply (Hlist "tags" ["x"; "y"]). reflexivity.
Defined.

Lemma sqlite_tables_counts io db_filename data :
  counts (sqlite_tables io db_filename data).1 = counts data.
Proof.
  unfold counts. induction data as [|[name rows] rest IH]; [done|].
  cbn [sqlite_tables]. destruct rows as [|row rows].
  - destruct (sqlite_tables io db_filename rest) as [rest' tables].
    cbn [fst] in *. rewrite !fmap_cons. by rewrite IH.
  - destruct (to_sql_fails io name).
    + cbn [fst]. rewrite !fmap_cons. cbn [fst snd length].
      by rewrite length_fmap.
    + destruct (sqlite_tables io db_filename rest) as [rest' tables].
      cbn [fst] in *. rewrite !fmap_cons. cbn [fst snd length].
      by rewrite length_fmap, IH.
Qed.

Lemma save_formats_counts io output_dir timestamp formats data :
  counts (save_formats io output_dir timestamp formats data).1 = counts data.
Proof.
  revert data. induction formats as [|fmt rest IH]; intros data; [done|].
  simpl.
  assert (Hstep : counts (if String.eqb fmt "json"
                          then (data, save_json io output_dir data timestamp)
                          else if String.eqb fmt "csv"
                          then (data, save_csv io output_dir data timestamp)
                          else if String.eqb fmt "sqlite"
                          then save_sqlite io output_dir data timestamp
                          else (data, [])).1 = counts data).
  { destruct (String.eqb fmt "json"); [done|].
    destruct (String.eqb fmt "csv"); [done|].
    destruct (String.eqb fmt "sqlite"); [|done].
    unfold save_sqlite. destruct (connect_fails io _); [done|].
    apply sqlite_tables_counts. }
  destruct (if String.eqb fmt "json" then _ else _) as [data' out].
  specialize (IH data').
  destruct (save_formats io output_dir timestamp rest data') as [data'' out'].
  simpl in *. by rewrite IH.
Qed.

Lemma counts_list_to_map (data1 data2 : site_items) (name : string) :
  counts data1 = counts data2 →
  length <$> (list_to_map data1 : gmap string (list (gmap string value))) !! name
  = length <$> (list_to_map data2 : gmap string (list (gmap string value))) !! name.
Proof.
  unfold counts. revert data2.
  induction data1 as [|[n1 r1] d1 IH]; intros [|[n2 r2] d2] Hsame; try done.
  simpl in Hsame. injection Hsame as -> Hlen Hrest. simpl.
  destruct (decide (n2 = name)) as [->|Hne].
  - rewrite !lookup_insert_eq. simpl. by rewrite Hlen.
  - rewrite !lookup_insert_ne by done. by apply IH.
Qed.

(** X20. Whatever the formats and whatever fails on the disk, saving
    leaves the sites, their order and the number of records of every site
    as they were; the report made afterwards from the saved data is the one
    that the data before saving would give. *)
Theorem saving_preserves_the_report (io : disk) (storage : storage_config)
    (timestamp ts : string) (data : site_items) :
  counts (save_data io storage timestamp data).1 = counts data
  ∧ generate_report ts (list_to_map (save_data io storage timestamp data).1)
    = generate_report ts (list_to_map data).
Proof.
  assert (Hcounts : counts (save_data io storage timestamp data).1 = counts data)
    by apply save_formats_counts.
  split; [exact Hcounts|].
  apply counts_decide_the_report. intros name.
  by apply counts_list_to_map.
Qed.

Lemma sqlite_tables_sound io db_filename data :
  (∀ name rows, (name, rows) ∈ data → rows ≠ [] →
     to_sql_fails io name = false) →
  sqlite_tables io db_filename data
  = (flatten_sites data, tables_of db_filename data).
Proof.
  unfold flatten_sites, tables_of.
  induction data as [|[name rows] rest IH]; intros Hok; [done|].
  cbn [sqlite_tables]. rewrite IH
    by (intros n r Hin; apply Hok; by apply list_elem_of_further).
  destruct rows as [|row rows]; [done|].
  rewrite (Hok name (row :: rows)) by (done || apply list_elem_of_here).
  done.
Qed.

(** X21. When the database opens and every table can be stored,
    [save_sqlite] goes over every item of every site and stores one table
    per site that has records, none for a site without records. *)
Theorem save_sqlite_without_failure (io : disk) (output_dir timestamp : string)
    (data : site_items) :
  connect_fails io (output_dir +:+ "/scraped_data_" +:+ timestamp +:+ ".db")
  = false →
  (∀ name rows, (name, rows) ∈ data → rows ≠ [] →
     to_sql_fails io name = false) →
  save_sqlite io output_dir data timestamp
  = (flatten_sites data,
     tables_of (output_dir +:+ "/scraped_data_" +:+ timestamp +:+ ".db") data).
Proof.
  intros Hdb Hok. unfold save_sqlite. rewrite Hdb.
  by apply sqlite_tables_sound.
Qed.

Lemma save_sqlite_without_failure_witness :
  save_sqlite sound_disk "out"
    [("a", [{[ "tags" := VList ["x"; "y"]; "text" := VStr "t" ]}]); ("b", [])]
    "20240501_100500"
  = ([("a", [{[ "tags" := VStr "x, y"; "text" := VStr "t" ]}]); ("b", [])],
     [WroteTable "out/scraped_data_20240501_100500.db" "a"
        [{[ "tags" := VStr "x, y"; "text" := VStr "t" ]}]]).
Proof.
  etrans.
  - apply (save_sqlite_without_failure sound_disk "out" "20240501_100500"
             [("a", [{[ "tags" := VList ["x"; "y"]; "text" := VStr "t" ]}]);
              ("b", [])]);
      [reflexivity | intros; reflexivity].
  - vm_compute. reflexivity.
Defined.

(** X22. A call of [to_sql] that raises ends [save_sqlite]: the sites
    before it are gone over and stored, the items of the failing site are
    gone over before the call that raises (whatever that call leaves of its
    table), and the sites after it are neither touched nor passed to
    [to_sql]. *)
Theorem save_sqlite_stops_at_failure (io : disk) (output_dir timestamp : string)
    (before after : site_items) (name : string)
    (rows : list (gmap string value)) :
  connect_fails io (output_dir +:+ "/scraped_data_" +:+ timestamp +:+ ".db")
  = false →
  (∀ n r, (n, r) ∈ before → r ≠ [] → to_sql_fails io n = false) →
  rows ≠ [] →
  to_sql_fails io name = true →
  save_sqlite io output_dir (before ++ (name, rows) :: after) timestamp
  = (flatten_sites before ++ (name, flatten_item <$> rows) :: after,
     tables_of (output_dir +:+ "/scraped_data_" +:+ timestamp +:+ ".db") before
     ++ [FailedTable (output_dir +:+ "/scraped_data_" +:+ timestamp +:+ ".db")
           name (flatten_item <$> rows)]).
Proof.
  intros Hdb Hok Hrows Hfail. unfold save_sqlite. rewrite Hdb.
  generalize (output_dir +:+ "/scraped_data_" +:+ timestamp +:+ ".db") as db.
  intros db. unfold flatten_sites, tables_of.
  induction before as [|[n r] before IH].
  - cbn [app sqlite_tables]. rewrite Hfail. by destruct rows.
  - rewrite <- app_comm_cons. cbn [sqlite_tables].
    rewrite IH by (intros n' r' Hin; apply Hok; by apply list_elem_of_further).
    destruct r as [|row r]; [done|].
    rewrite (Hok n (row :: r)) by (done || apply list_elem_of_here).
    done.
Qed.

Lemma save_sqlite_stops_at_failure_witness :
  save_sqlite (mkDisk (λ _, false) (λ _, false) (λ name, String.eqb name "b"))
    "out"
    [("a", [{[ "tags" := VList ["x"] ]}]);
     ("b", [{[ "tags" := VList ["y"; "z"] ]}]);
     ("c", [{[ "tags" := VList ["w"] ]}])]
    "20240501_100500"
  = ([("a", [{[ "tags" := VStr "x" ]}]);
      ("b", [{[ "tags" := VStr "y, z" ]}]);
      ("c", [{[ "tags" := VList ["w"] ]}])],
     [WroteTable "out/scraped_data_20240501_100500.db" "a"
        [{[ "tags" := VStr "x" ]}];
      FailedTable "out/scraped_data_20240501_100500.db" "b"
        [{[ "tags" := VStr "y, z" ]}]]).
Proof.
  assert (Hstop := save_sqlite_stops_at_failure
             (mkDisk (λ _, false) (λ _, false) (λ name, String.eqb name "b"))
             "out" "20240501_100500"
             [("a", [{[ "tags" := VList ["x"] ]}])]
             [("c", [{[ "tags" := VList ["w"] ]}])]
             "b" [{[ "tags" := VList ["y"; "z"] ]}]).
  etrans.
  - apply Hstop; [reflexivity | | done | reflexivity].
    intros n r Hin _. apply list_elem_of_singleton in Hin.
    by injection Hin as -> _.
  - vm_compute. reflexivity.
Defined.

(** X23. [save_csv] writes the file of a site exactly when the site has
    records and the file can be written: a site without records gets no
    file, and a file that cannot be written does not keep the files of the
    other sites from being written. *)
Theorem save_csv_files (io : disk) (output_dir timestamp : string)
    (data : site_items) (w : written) :
  w ∈ save_csv io output_dir data timestamp
  ↔ ∃ name rows,
      (name, rows) ∈ data
      ∧ rows ≠ []
      ∧ open_fails io (output_dir +:+ "/scraped_" +:+ name +:+ "_"
                       +:+ timestamp +:+ ".csv") = false
      ∧ w = WroteCsv (output_dir +:+ "/scraped_" +:+ name +:+ "_"
                      +:+ timestamp +:+ ".csv") rows.
Proof.
  induction data as [|[name rows] rest IH].
  - simpl. split; [by intros Hin%elem_of_nil|].
    by intros (n & r & Hin%elem_of_nil & _).
  - assert (Hrest : w ∈ save_csv io output_dir rest timestamp →
              ∃ n r, (n, r) ∈ (name, rows) :: rest ∧ r ≠ []
                ∧ open_fails io (output_dir +:+ "/scraped_" +:+ n +:+ "_"
                                 +:+ timestamp +:+ ".csv") = false
                ∧ w = WroteCsv (output_dir +:+ "/scraped_" +:+ n +:+ "_"
                                +:+ timestamp +:+ ".csv") r).
    { intros (n & r & Hin & Hr) %IH. exists n, r.
      split; [by apply list_elem_of_further | done]. }
    cbn [save_csv]. destruct rows as [|row rows].
    + split; [exact Hrest|].
      intros (n & r & [Heq|Hin]%elem_of_cons & Hne & Hok & ->).
      * by injection Heq as -> ->.
      * apply IH. by exists n, r.
    + destruct (open_fails io _) eqn:Hfails.
      * split; [exact Hrest|].
        intros (n & r & [Heq|Hin]%elem_of_cons & Hne & Hok & ->).
        -- injection Heq as -> ->. congruence.
        -- apply IH. by exists n, r.
      * split.
        -- intros [->|Hin]%elem_of_cons; [|by apply Hrest].
           exists name, (row :: rows).
           split; [apply list_elem_of_here | done].
        -- intros (n & r & [Heq|Hin]%elem_of_cons & Hne & Hok & ->).
           ++ injection Heq as -> ->. apply list_elem_of_here.
           ++ apply list_elem_of_further, IH. by exists n, r.
Qed.

Lemma save_csv_files_witness :
  WroteCsv "out/scraped_b_20240501_100500.csv" [∅]
  ∈ save_csv (mkDisk (λ f, String.eqb f "out/scraped_a_20240501_100500.csv")
                (λ _, false) (λ _, false))
      "out" [("a", [∅]); ("b", [∅]); ("c", [])] "20240501_100500".
Proof.
  apply (save_csv_files
           (mkDisk (λ f, String.eqb f "out/scraped_a_20240501_100500.csv")
              (λ _, false) (λ _, false))
           "out" "20240501_100500" [("a", [∅]); ("b", [∅]); ("c", [])]).
  exists "b", [∅]. split_and!; [|done|reflexivity|reflexivity].
  apply list_elem_of_further, list_elem_of_here.
Defined.

(** X24. The writers share the data: with the formats [sqlite] then
    [json], the JSON file holds the items as [save_sqlite] left them, lists
    turned into text; with [json] then [sqlite] it holds the items as they
    were scraped.  In both orders the data is left gone over. *)
Theorem json_after_sqlite_is_flattened (io : disk)
    (output_dir timestamp : string) (data : site_items) :
  open_fails io (output_dir +:+ "/scraped_data_" +:+ timestamp +:+ ".json")
  = false →
  connect_fails io (output_dir +:+ "/scraped_data_" +:+ timestamp +:+ ".db")
  = false →
  (∀ name rows, (name, rows) ∈ data → rows ≠ [] →
     to_sql_fails io name = false) →
  save_formats io output_dir timestamp ["sqlite"; "json"] data
  = (flatten_sites data,
     tables_of (output_dir +:+ "/scraped_data_" +:+ timestamp +:+ ".db") data
     ++ [WroteJson (output_dir +:+ "/scraped_data_" +:+ timestamp +:+ ".json")
           (flatten_sites data)])
  ∧ save_formats io output_dir timestamp ["json"; "sqlite"] data
    = (flatten_sites data,
       WroteJson (output_dir +:+ "/scraped_data_" +:+ timestamp +:+ ".json") data
       :: tables_of (output_dir +:+ "/scraped_data_" +:+ timestamp +:+ ".db")
            data).
Proof.
  intros Hjson Hdb Hok.
  assert (Hsql : save_sqlite io output_dir data timestamp
                 = (flatten_sites data,
                    tables_of (output_dir +:+ "/scraped_data_" +:+ timestamp
                               +:+ ".db") data)).
  { unfold save_sqlite. rewrite Hdb. by apply sqlite_tables_sound. }
  split.
  - cbn [save_formats String.eqb Ascii.eqb Bool.eqb]. rewrite Hsql.
    unfold save_json. rewrite Hjson. by rewrite app_nil_r.
  - cbn [save_formats String.eqb Ascii.eqb Bool.eqb]. unfold save_json.
    rewrite Hjson, Hsql. by rewrite app_nil_r.
Qed.

Lemma json_after_sqlite_is_flattened_witness :
  (save_data sound_disk (mkStorage (Some ["sqlite"; "json"]) (Some "out"))
     "20240501_100500" [("a", [{[ "tags" := VList ["x"; "y"] ]}])]).2
  = [WroteTable "out/scraped_data_20240501_100500.db" "a"
       [{[ "tags" := VStr "x, y" ]}];
     WroteJson "out/scraped_data_20240501_100500.json"
       [("a", [{[ "tags" := VStr "x, y" ]}])]].
Proof.
  destruct (json_after_sqlite_is_flattened sound_disk "out" "20240501_100500"
              [("a", [{[ "tags" := VList ["x"; "y"] ]}])]) as [Hfirst _];
    [reflexivity | reflexivity | intros; reflexivity |].
  unfold save_data. simpl default. rewrite Hfirst. vm_compute. reflexivity.
Defined.

(** X25. A format that is none of [json], [csv], [sqlite] writes nothing
    and changes nothing: saving goes on with the formats that follow it as
    if it was not listed. *)
Theorem unknown_format_is_skipped (io : disk) (output_dir timestamp : string)
    (listed_before listed_after : list string) (fmt : string)
    (data : site_items) :
  fmt ≠ "json" → fmt ≠ "csv" → fmt ≠ "sqlite" →
  save_formats io output_dir timestamp (listed_before ++ fmt :: listed_after) data
  = save_formats io output_dir timestamp (listed_before ++ listed_after) data.
Proof.
  intros Hj%String.eqb_neq Hc%String.eqb_neq Hs%String.eqb_neq. revert data.
  induction listed_before as [|f listed_before IH]; intros data.
  - cbn [app save_formats]. rewrite Hj, Hc, Hs.
    by destruct (save_formats io output_dir timestamp listed_after data).
  - rewrite <- !app_comm_cons. cbn [save_formats].
    destruct (if String.eqb f "json" then _ else _) as [data' out].
    by rewrite IH.
Qed.

Lemma unknown_format_is_skipped_witness :
  save_data sound_disk (mkStorage (Some ["excel"; "json"]) None)
    "20240501_100500" [("a", [])]
  = ([("a", [])],
     [WroteJson "scraped_data/scraped_data_20240501_100500.json" [("a", [])]]).
Proof.
  etrans.
  - apply (unknown_format_is_skipped sound_disk "scraped_data" "20240501_100500"
             [] ["json"] "excel" [("a", [])]); done.
  - reflexivity.
Defined.
